(** * Credit Risk Predictor: the encode-and-infer core of [app.py]

    A shallow embedding of the request handler of the Streamlit page
    [app.py]: loading of the classifier and of the label encoders
    ([load_assets], behind [st.cache_resource]), assembly of the one-row
    feature table ([input_df]), the call of the scorer, and the
    interpretation and display of its answer. *)

From Stdlib Require Import ZArith List Bool.
From Stdlib Require Import Floats.SpecFloat.
From stdpp Require Import gmap strings list fin_maps.

Local Open Scope Z_scope.

(** ** Python floats

    A Python [float] is an IEEE 754 binary64 number.  It is modelled by
    [spec_float] with the binary64 parameters; the arithmetic and the
    comparisons are those of [SpecFloat]. *)

Module PyFloat.

Definition float : Type := spec_float.

Definition prec : Z := 53.
Definition emax : Z := 1024.

(** The literals [0.0], [1.0] (also the integer [1] converted for a mixed
    operation) and [100.0]. *)
Definition f0 : float := S754_zero false.
Definition f1 : float := S754_finite false 4503599627370496 (-52).
Definition f100 : float := S754_finite false 7036874417766400 (-46).

Definition sub (x y : float) : float := SFsub prec emax x y.
Definition mul (x y : float) : float := SFmul prec emax x y.

(** [x < y], [x <= y] and [x > y] on floats; every comparison with a NaN
    is [False]. *)
Definition ltb (x y : float) : bool := SFltb x y.
Definition leb (x y : float) : bool := SFleb x y.
Definition gtb (x y : float) : bool := ltb y x.

Definition is_nan (x : float) : bool :=
  match x with S754_nan => true | _ => false end.

(** The builtins [max(a, b)] and [min(a, b)]: the first argument is kept
    unless the second one is strictly greater (resp. smaller). *)
Definition py_max (a b : float) : float := if gtb b a then b else a.
Definition py_min (a b : float) : float := if ltb b a then b else a.

(** Membership of the closed interval [0.0, 1.0]. *)
Definition in_unit (x : float) : bool := leb f0 x && leb x f1.

End PyFloat.

Import PyFloat.

(** The argument of [st.progress] on line 165:
    [min(max(proba_good, 0.0), 1.0)]. *)
Definition progress_value (proba_good : float) : float :=
  py_min (py_max proba_good f0) f1.

(** ** Exceptions, results and the values of the page *)

Inductive exn : Type :=
| AssetLoadFailure (path : string)  (* [joblib.load] cannot load the file *)
| KeyError (key : string)           (* a missing dictionary key *)
| UnknownCategory (label : string)  (* the encoder has no code for the label *)
| IndexError                        (* [xs[i]] out of range *)
| ValueError                        (* [xs.index(x)] without such an element *)
| NameError (name : string)         (* an unbound local variable *)
| ScorerFailure                     (* raised inside the external scorer *)
| StreamlitAPIException.            (* a Streamlit element refuses its argument *)

Inductive result (A : Type) : Type :=
| Ok (a : A)
| Err (e : exn).
Arguments Ok {A} a.
Arguments Err {A} e.

(** [pd.DataFrame] built from a dictionary of columns: the columns keep the
    insertion order of the dictionary, each with its list of cells. *)
Definition DataFrame : Type := list (string * list Z).

(** The column [name] of [df], when there is one. *)
Fixpoint column (name : string) (df : DataFrame) : option (list Z) :=
  match df with
  | [] => None
  | (c, cells) :: rest => if String.eqb c name then Some cells else column name rest
  end.

(** Modelled from the spec: the label encoders are external fitted objects
    (the files [<col>_encoder.pkl]); section 4.1 and the glossary give their
    contract, a mapping from a finite set of known string labels to integer
    codes whose lookup fails with UnknownCategory on any other label. *)
Record Encoder : Type := { codes : gmap string Z }.

(** Modelled from the spec: [enc.transform(labels)] is the lookup of section
    4.1 applied to each label: the codes of all the labels, or the failure
    of the first label that is unknown. *)
Fixpoint transform (enc : Encoder) (labels : list string) : result (list Z) :=
  match labels with
  | [] => Ok []
  | l :: rest =>
      match codes enc !! l with
      | None => Err (UnknownCategory l)
      | Some c =>
          match transform enc rest with
          | Ok cs => Ok (c :: cs)
          | Err e => Err e
          end
      end
  end.

(** Modelled from the spec: the scorer is the external classifier of the file
    [extra_trees_credit_modelo.pkl]; section 4.3 gives its contract:
    [predict] from a table to one integer class id per row, optionally
    [predict_proba] from a table to one probability vector per row, indexed
    like the class list [classes_].  Either call may fail. *)
Record Scorer : Type := {
  predict : DataFrame -> result (list Z);
  predict_proba : option (DataFrame -> result (list (list float)));
  classes_ : list Z
}.

(** The form of the page: the eight widgets and the submit button. *)
Record Applicant : Type := {
  age : Z;
  sex : string;
  job : Z;
  housing : string;
  saving_accounts : string;
  checking_account : string;
  credit_amount : Z;
  duration : Z
}.

Record Form : Type := { applicant : Applicant; submitted : bool }.

(** The options of the four select boxes and the bounds of the number
    inputs (lines 86 to 96). *)
Definition sex_options : list string := ["male"; "female"].
Definition housing_options : list string := ["own"; "rent"; "free"].
Definition saving_options : list string := ["little"; "moderate"; "rich"; "quite rich"].
Definition checking_options : list string := ["little"; "moderate"; "rich"].

Definition in_options (s : string) (opts : list string) : bool :=
  existsb (String.eqb s) opts.

Definition valid_applicant (a : Applicant) : bool :=
  (18 <=? age a) && (age a <=? 80)
  && in_options (sex a) sex_options
  && (0 <=? job a) && (job a <=? 3)
  && in_options (housing a) housing_options
  && in_options (saving_accounts a) saving_options
  && in_options (checking_account a) checking_options
  && (1 <=? credit_amount a)
  && (1 <=? duration a).

(** ** The process: loaded objects, the resource cache, observable events *)

(** An object returned by [joblib.load], with the identity it got when it was
    allocated: two references to one object have the same [oid]. *)
Record loaded (A : Type) : Type := { oid : nat; obj : A }.
Arguments oid {A} l.
Arguments obj {A} l.

(** What [load_assets] returns: [(model, encoders)]. *)
Record Assets : Type := {
  a_model : loaded Scorer;
  a_encoders : gmap string (loaded Encoder)
}.

(** The asset files beside the script: what [joblib.load] finds at a path. *)
Record AssetFiles : Type := {
  scorer_files : gmap string Scorer;
  encoder_files : gmap string Encoder
}.

(** The argument of a metric before it is formatted into its text. *)
Inductive metric_value : Type :=
| MInt (z : Z)
| MPercent (p : float).

Inductive event : Type :=
| EvLoad (path : string)                           (* joblib.load(path) *)
| EvTransform (col : string) (labels : list string) (* encoders[col].transform(labels) *)
| EvPredict (df : DataFrame)                       (* model.predict(df) *)
| EvPredictProba (df : DataFrame)                  (* model.predict_proba(df) *)
| EvSuccess (msg : string)                         (* st.success(msg) *)
| EvError (msg : string)                           (* st.error(msg) *)
| EvMetric (label : string) (v : metric_value)     (* column.metric(label, text) *)
| EvProgress (v : float)                           (* st.progress(v) *)
| EvDataframe (df : DataFrame).                    (* st.dataframe(df) *)

(** The state that outlives one run of the script: the allocator of object
    identities and the slot of [st.cache_resource] for [load_assets]. *)
Record Process : Type := {
  next_oid : nat;
  cache : option Assets
}.

Definition fresh_process : Process := {| next_oid := 0; cache := None |}.

(** One run of a computation: the events it emitted in order, the process
    state it left and its value or the exception that ended it. *)
Record Run (A : Type) : Type := {
  events : list event;
  final : Process;
  outcome : result A
}.
Arguments events {A} r.
Arguments final {A} r.
Arguments outcome {A} r.

Definition M (A : Type) : Type := Process -> Run A.

Definition ret {A} (a : A) : M A :=
  fun p => {| events := []; final := p; outcome := Ok a |}.

Definition raise {A} (e : exn) : M A :=
  fun p => {| events := []; final := p; outcome := Err e |}.

Definition bind {A B} (m : M A) (k : A -> M B) : M B :=
  fun p =>
    let r := m p in
    match outcome r with
    | Ok a =>
        let r' := k a (final r) in
        {| events := events r ++ events r'; final := final r'; outcome := outcome r' |}
    | Err e => {| events := events r; final := final r; outcome := Err e |}
    end.

Definition emit (e : event) : M unit :=
  fun p => {| events := [e]; final := p; outcome := Ok tt |}.

Definition lift {A} (r : result A) : M A :=
  match r with Ok a => ret a | Err e => raise e end.

Declare Scope py_scope.
Delimit Scope py_scope with py.
Notation "x <- m ;; k" := (bind m (fun x => k))
  (at level 100, m at next level, right associativity) : py_scope.
Notation "m ;;; k" := (bind m (fun _ => k))
  (at level 100, right associativity) : py_scope.
Local Open Scope py_scope.

(** ** Python builtins used by the script *)

(** [xs[i]] on a list. *)
Definition py_getitem {A} (xs : list A) (i : nat) : M A :=
  match xs !! i with
  | Some x => ret x
  | None => raise IndexError
  end.

(** [d[key]] on a dictionary. *)
Definition dict_getitem {A} (d : gmap string A) (key : string) : M A :=
  match d !! key with
  | Some x => ret x
  | None => raise (KeyError key)
  end.

(** [x in xs] and [list(xs).index(x)] on class ids. *)
Definition py_in (x : Z) (xs : list Z) : bool := existsb (Z.eqb x) xs.

Fixpoint py_index (x : Z) (xs : list Z) : option nat :=
  match xs with
  | [] => None
  | y :: rest => if Z.eqb y x then Some O else option_map S (py_index x rest)
  end.

(** ** Loading the assets (lines 42 to 51) *)

Definition model_path : string := "extra_trees_credit_modelo.pkl".
Definition encoder_path (col : string) : string := col +:+ "_encoder.pkl".
Definition encoder_cols : list string :=
  ["Sex"; "Housing"; "Saving accounts"; "Checking account"].

(** [joblib.load(path)]: the call is observable; a file that is there gives a
    newly allocated object, a missing one raises. *)
Definition joblib_load {A} (files : gmap string A) (path : string) : M (loaded A) :=
  fun p =>
    match files !! path with
    | Some o =>
        {| events := [EvLoad path];
           final := {| next_oid := S (next_oid p); cache := cache p |};
           outcome := Ok {| oid := next_oid p; obj := o |} |}
    | None =>
        {| events := [EvLoad path]; final := p; outcome := Err (AssetLoadFailure path) |}
    end.

(** The dictionary comprehension of lines 45 to 48, column after column. *)
Fixpoint load_encoders (fs : AssetFiles) (cols : list string)
    (acc : gmap string (loaded Encoder)) : M (gmap string (loaded Encoder)) :=
  match cols with
  | [] => ret acc
  | col :: rest =>
      e <- joblib_load (encoder_files fs) (encoder_path col) ;;
      load_encoders fs rest (<[col := e]> acc)
  end.

Definition load_assets (fs : AssetFiles) : M Assets :=
  model <- joblib_load (scorer_files fs) model_path ;;
  encoders <- load_encoders fs encoder_cols ∅ ;;
  ret {| a_model := model; a_encoders := encoders |}.

(** Modelled from the spec: [st.cache_resource] is Streamlit's decorator;
    section 5 describes it as a process-wide cache keyed by "no arguments",
    an init-once singleton.  A call finds the stored value and returns that
    very value without running the body, or runs the body and stores what it
    returns; a body that raises stores nothing. *)
Definition cache_resource (body : M Assets) : M Assets :=
  fun p =>
    match cache p with
    | Some v => {| events := []; final := p; outcome := Ok v |}
    | None =>
        let r := body p in
        match outcome r with
        | Ok v =>
            {| events := events r;
               final := {| next_oid := next_oid (final r); cache := Some v |};
               outcome := Ok v |}
        | Err e => r
        end
    end.

Definition load_assets_cached (fs : AssetFiles) : M Assets :=
  cache_resource (load_assets fs).

(** ** The request handler (lines 129 to 168) *)

(** [encoders[col].transform([label])[0]]. *)
Definition encode_field (encoders : gmap string Encoder) (col label : string) : M Z :=
  enc <- dict_getitem encoders col ;;
  emit (EvTransform col [label]) ;;;
  cs <- lift (transform enc [label]) ;;
  py_getitem cs 0.

(** The dictionary display of lines 130 to 139 evaluates its values from top
    to bottom; the table is built only once all of them are there. *)
Definition build_input_df (encoders : gmap string Encoder) (a : Applicant) : M DataFrame :=
  sex_c <- encode_field encoders "Sex" (sex a) ;;
  housing_c <- encode_field encoders "Housing" (housing a) ;;
  saving_c <- encode_field encoders "Saving accounts" (saving_accounts a) ;;
  checking_c <- encode_field encoders "Checking account" (checking_account a) ;;
  ret [ ("Age", [age a]);
        ("Sex", [sex_c]);
        ("Job", [job a]);
        ("Housing", [housing_c]);
        ("Saving accounts", [saving_c]);
        ("Checking account", [checking_c]);
        ("Credit amount", [credit_amount a]);
        ("Duration", [duration a]) ].

(** Line 141: [pred = model.predict(input_df)[0]]. *)
Definition call_predict (model : Scorer) (input_df : DataFrame) : M Z :=
  emit (EvPredict input_df) ;;;
  labels <- lift (predict model input_df) ;;
  py_getitem labels 0.

(** Line 150: [float(proba[list(model.classes_).index(1)]) if 1 in
    model.classes_ else None]; the condition is evaluated first. *)
Definition good_entry (classes : list Z) (proba : list float) : M (option float) :=
  if py_in 1 classes then
    match py_index 1 classes with
    | Some i => p <- py_getitem proba i ;; ret (Some p)
    | None => raise ValueError
    end
  else ret None.

(** Lines 145 to 150: the value of [proba_good]; [None] also stands for the
    variable being unbound, when the scorer has no [predict_proba]. *)
Definition read_proba_good (model : Scorer) (input_df : DataFrame) : M (option float) :=
  match predict_proba model with
  | None => ret None
  | Some f =>
      emit (EvPredictProba input_df) ;;;
      rows <- lift (f input_df) ;;
      proba <- py_getitem rows 0 ;;
      good_entry (classes_ model) proba
  end.

(** Lines 144, 151 and 152: [proba_bad] stays [None] unless [proba_good] is
    a number, and is [1 - proba_good] then. *)
Definition proba_bad_of (proba_good : option float) : option float :=
  match proba_good with
  | Some pg => Some (sub f1 pg)
  | None => None
  end.

Inductive Verdict : Type := GOOD | BAD.

Definition verdict_of_label (pred : Z) : Verdict :=
  if Z.eqb pred 1 then GOOD else BAD.

(** Lines 155 to 158. *)
Definition show_verdict (pred : Z) : M unit :=
  if Z.eqb pred 1
  then emit (EvSuccess "Predicted credit risk: **GOOD**")
  else emit (EvError "Predicted credit risk: **BAD**").

(** Modelled from the spec: [st.progress] is Streamlit's bounded [0,1]
    progress indicator of section 6, not code of this repository. The call
    is observable with its argument; a float within [0.0, 1.0] is taken,
    any other float, a NaN among them, is refused with an exception and
    ends the run. *)
Definition st_progress (v : float) : M unit :=
  emit (EvProgress v) ;;;
  if in_unit v then ret tt else raise StreamlitAPIException.

(** Lines 163 to 165: the third metric and the progress bar. *)
Definition show_proba (proba_good proba_bad : option float) : M unit :=
  match proba_bad with
  | None => ret tt
  | Some _ =>
      match proba_good with
      | Some pg =>
          emit (EvMetric "Estimated GOOD probability" (MPercent (mul pg f100))) ;;;
          st_progress (progress_value pg)
      | None => raise (NameError "proba_good")
      end
  end.

(** The local variables at the end of the [if submitted:] block. *)
Record Locals : Type := {
  input_df : DataFrame;
  pred : Z;
  proba_good : option float;
  proba_bad : option float
}.

Definition on_submit (model : Scorer) (encoders : gmap string Encoder)
    (a : Applicant) : M Locals :=
  df <- build_input_df encoders a ;;
  pr <- call_predict model df ;;
  pg <- read_proba_good model df ;;
  let pb := proba_bad_of pg in
  show_verdict pr ;;;
  emit (EvMetric "Credit Amount" (MInt (credit_amount a))) ;;;
  emit (EvMetric "Duration (months)" (MInt (duration a))) ;;;
  show_proba pg pb ;;;
  emit (EvDataframe df) ;;;
  ret {| input_df := df; pred := pr; proba_good := pg; proba_bad := pb |}.

(** One run of the script: the globals [model, encoders] come from the
    cached [load_assets]; the handler runs when the form was submitted. *)
Record Globals : Type := {
  g_assets : Assets;
  g_locals : option Locals
}.

Definition script (fs : AssetFiles) (form : Form) : M Globals :=
  assets <- load_assets_cached fs ;;
  if submitted form then
    l <- on_submit (obj (a_model assets)) (obj <$> a_encoders assets) (applicant form) ;;
    ret {| g_assets := assets; g_locals := Some l |}
  else ret {| g_assets := assets; g_locals := None |}.

(** The reruns of one process: every interaction runs the script again on
    the state the previous run left, whether that run ended in an exception
    or not. *)
Fixpoint reruns (fs : AssetFiles) (forms : list Form) (p : Process)
    : list (Run Globals) :=
  match forms with
  | [] => []
  | f :: rest => let r := script fs f p in r :: reruns fs rest (final r)
  end.

(** ** What a run shows *)

Definition verdict_of_event (e : event) : option Verdict :=
  match e with
  | EvSuccess _ => Some GOOD
  | EvError _ => Some BAD
  | _ => None
  end.

(** The verdicts displayed by a run, in order. *)
Definition verdicts (tr : list event) : list Verdict := omap verdict_of_event tr.

Definition is_load (e : event) : bool :=
  match e with EvLoad _ => true | _ => false end.
Definition is_transform (e : event) : bool :=
  match e with EvTransform _ _ => true | _ => false end.
Definition is_scorer_call (e : event) : bool :=
  match e with EvPredict _ | EvPredictProba _ => true | _ => false end.
Definition is_display (e : event) : bool :=
  match e with
  | EvSuccess _ | EvError _ | EvMetric _ _ | EvProgress _ | EvDataframe _ => true
  | _ => false
  end.
Definition is_proba_display (e : event) : bool :=
  match e with
  | EvMetric "Estimated GOOD probability" _ | EvProgress _ => true
  | _ => false
  end.

(** ** Sample assets

    Encoders fitted on the options of the form, with the codes a label
    encoder gives to the sorted labels, and scorers of each kind. *)

Module Samples.

Definition encoder_of (table : list (string * Z)) : Encoder :=
  {| codes := list_to_map table |}.

Definition sex_encoder : Encoder := encoder_of [("female", 0); ("male", 1)].
Definition housing_encoder : Encoder :=
  encoder_of [("free", 0); ("own", 1); ("rent", 2)].
Definition saving_encoder : Encoder :=
  encoder_of [("little", 0); ("moderate", 1); ("quite rich", 2); ("rich", 3)].
Definition checking_encoder : Encoder :=
  encoder_of [("little", 0); ("moderate", 1); ("rich", 2)].

Definition encoders : gmap string Encoder :=
  list_to_map [ ("Sex", sex_encoder); ("Housing", housing_encoder);
                ("Saving accounts", saving_encoder);
                ("Checking account", checking_encoder) ].

(** [0.25], [0.75], [1.5], [-0.5] and [2 ** -60]. *)
Definition f_quarter : float := S754_finite false 4503599627370496 (-54).
Definition f_three_quarters : float := S754_finite false 6755399441055744 (-53).
Definition f_one_and_half : float := S754_finite false 6755399441055744 (-52).
Definition f_minus_half : float := S754_finite true 4503599627370496 (-53).
Definition f_tiny : float := S754_finite false 4503599627370496 (-112).

(** A scorer that answers GOOD up to a credit amount of 5000. *)
Definition label_for (df : DataFrame) : Z :=
  match column "Credit amount" df with
  | Some [amount] => if amount <=? 5000 then 1 else 0
  | _ => 0
  end.

Definition scorer_with_proba : Scorer :=
  {| predict := fun df => Ok [label_for df];
     predict_proba := Some (fun _ => Ok [[f_quarter; f_three_quarters]]);
     classes_ := [0; 1] |}.

Definition scorer_label_only : Scorer :=
  {| predict := fun df => Ok [label_for df];
     predict_proba := None;
     classes_ := [0; 1] |}.

(** A scorer trained on the class ids 0 and 2. *)
Definition scorer_other_classes : Scorer :=
  {| predict := fun _ => Ok [2];
     predict_proba := Some (fun _ => Ok [[f_quarter; f_three_quarters]]);
     classes_ := [0; 2] |}.

(** Scorers whose vector for class 1 is not a probability. *)
Definition scorer_out_of_range : Scorer :=
  {| predict := fun _ => Ok [1];
     predict_proba := Some (fun _ => Ok [[f_minus_half; f_one_and_half]]);
     classes_ := [0; 1] |}.

Definition scorer_nan : Scorer :=
  {| predict := fun _ => Ok [1];
     predict_proba := Some (fun _ => Ok [[S754_nan; S754_nan]]);
     classes_ := [0; 1] |}.

Definition files : AssetFiles :=
  {| scorer_files := {[ model_path := scorer_with_proba ]};
     encoder_files :=
       list_to_map [ (encoder_path "Sex", sex_encoder);
                     (encoder_path "Housing", housing_encoder);
                     (encoder_path "Saving accounts", saving_encoder);
                     (encoder_path "Checking account", checking_encoder) ] |}.

(** The two end-to-end examples of the specification. *)
Definition applicant_1000 : Applicant :=
  {| age := 30; sex := "male"; job := 1; housing := "own";
     saving_accounts := "little"; checking_account := "little";
     credit_amount := 1000; duration := 12 |}.

Definition applicant_50000 : Applicant :=
  {| age := 30; sex := "male"; job := 1; housing := "own";
     saving_accounts := "little"; checking_account := "little";
     credit_amount := 50000; duration := 60 |}.

(** A record with a housing label no select box offers. *)
Definition applicant_unknown_housing : Applicant :=
  {| age := 30; sex := "male"; job := 1; housing := "squat";
     saving_accounts := "little"; checking_account := "little";
     credit_amount := 1000; duration := 12 |}.

End Samples.

(** The tables of the two examples and the assets a fresh process loads
    from the sample files. *)
Definition table_1000 : DataFrame :=
  [ ("Age", [30]); ("Sex", [1]); ("Job", [1]); ("Housing", [1]);
    ("Saving accounts", [0]); ("Checking account", [0]);
    ("Credit amount", [1000]); ("Duration", [12]) ].

Definition table_50000 : DataFrame :=
  [ ("Age", [30]); ("Sex", [1]); ("Job", [1]); ("Housing", [1]);
    ("Saving accounts", [0]); ("Checking account", [0]);
    ("Credit amount", [50000]); ("Duration", [60]) ].

Definition sample_assets : Assets :=
  {| a_model := {| oid := 0; obj := Samples.scorer_with_proba |};
     a_encoders :=
       <["Checking account" := {| oid := 4; obj := Samples.checking_encoder |}]>
         (<["Saving accounts" := {| oid := 3; obj := Samples.saving_encoder |}]>
            (<["Housing" := {| oid := 2; obj := Samples.housing_encoder |}]>
               (<["Sex" := {| oid := 1; obj := Samples.sex_encoder |}]> ∅))) |}.

(** ** Vocabulary of the statements *)

(** The code the encoder of column [col] has for [label], when the bank has
    that encoder and the encoder that label. *)
Definition code_of (encoders : gmap string Encoder) (col label : string) : option Z :=
  match encoders !! col with
  | Some enc => codes enc !! label
  | None => None
  end.

(** [label] is in the fitted vocabulary of the encoder of [col]. *)
Definition knows (encoders : gmap string Encoder) (col label : string) : bool :=
  match code_of encoders col label with Some _ => true | None => false end.

(** The bank holds an encoder for each of the four categorical columns. *)
Definition bank_complete (encoders : gmap string Encoder) : bool :=
  forallb (fun col => match encoders !! col with Some _ => true | None => false end)
          encoder_cols.

(** Every option of the four select boxes is known to its encoder. *)
Definition fitted_on_form (encoders : gmap string Encoder) : bool :=
  forallb (knows encoders "Sex") sex_options
  && forallb (knows encoders "Housing") housing_options
  && forallb (knows encoders "Saving accounts") saving_options
  && forallb (knows encoders "Checking account") checking_options.

(** The scorer's probability call on [df] gives a vector for row 0 that has
    an entry at the position of class 1, when class 1 is listed. *)
Definition proba_well_formed (model : Scorer) (df : DataFrame) : Prop :=
  match predict_proba model with
  | None => True
  | Some f =>
      exists proba rows,
        f df = Ok (proba :: rows) /\
        forall i, py_index 1 (classes_ model) = Some i -> (i < length proba)%nat
  end.

(** The four categorical columns of a record, with the submitted labels. *)
Definition categorical_fields (a : Applicant) : list (string * string) :=
  [ ("Sex", sex a);
    ("Housing", housing a);
    ("Saving accounts", saving_accounts a);
    ("Checking account", checking_account a) ].

(** The four encoder calls of a full assembly, in the order of lines 132 to
    136. *)
Definition transform_calls (a : Applicant) : list event :=
  [ EvTransform "Sex" [sex a];
    EvTransform "Housing" [housing a];
    EvTransform "Saving accounts" [saving_accounts a];
    EvTransform "Checking account" [checking_account a] ].

(** The event of lines 155 to 158. *)
Definition verdict_event (label : Z) : event :=
  if Z.eqb label 1
  then EvSuccess "Predicted credit risk: **GOOD**"
  else EvError "Predicted credit risk: **BAD**".

(** The probability metric and the progress bar, shown when there is a
    probability. *)
Definition proba_display (pg : option float) : list event :=
  match pg with
  | Some x => [ EvMetric "Estimated GOOD probability" (MPercent (mul x f100));
                EvProgress (progress_value x) ]
  | None => []
  end.

(** What a completed handler emits after the table is built. *)
Definition display_events (a : Applicant) (df : DataFrame) (label : Z)
    (pg : option float) : list event :=
  verdict_event label
  :: EvMetric "Credit Amount" (MInt (credit_amount a))
  :: EvMetric "Duration (months)" (MInt (duration a))
  :: proba_display pg ++ [EvDataframe df].

(** The progress bar takes the clamp of this P(GOOD), or is not asked
    to. *)
Definition progress_accepts (pg : option float) : bool :=
  match pg with
  | Some x => in_unit (progress_value x)
  | None => true
  end.

(** What a handler whose scorer calls succeeded emits after them: the
    displays up to the progress bar, and the table when the progress bar
    did not end the run. *)
Definition handler_displays (a : Applicant) (df : DataFrame) (label : Z)
    (pg : option float) : list event :=
  verdict_event label
  :: EvMetric "Credit Amount" (MInt (credit_amount a))
  :: EvMetric "Duration (months)" (MInt (duration a))
  :: proba_display pg ++ (if progress_accepts pg then [EvDataframe df] else []).

(** The scorer call of the probability stage, when the scorer has one. *)
Definition proba_call (model : Scorer) (df : DataFrame) : list event :=
  match predict_proba model with
  | Some _ => [EvPredictProba df]
  | None => []
  end.

(** The five asset files are there. *)
Definition files_present (fs : AssetFiles) : bool :=
  match scorer_files fs !! model_path with Some _ => true | None => false end
  && forallb (fun col => match encoder_files fs !! encoder_path col with
                         | Some _ => true
                         | None => false
                         end) encoder_cols.

(** The code the asset file of column [col] has for [label]. *)
Definition file_code (fs : AssetFiles) (col label : string) : option Z :=
  match encoder_files fs !! encoder_path col with
  | Some enc => codes enc !! label
  | None => None
  end.

(** The assets are the contents of the asset files: the scorer of the model
    file, and for each categorical column the encoder of its file. *)
Definition assets_from (fs : AssetFiles) (v : Assets) : Prop :=
  scorer_files fs !! model_path = Some (obj (a_model v)) /\
  Forall (fun col => exists e, a_encoders v !! col = Some e /\
                               encoder_files fs !! encoder_path col = Some (obj e))
         encoder_cols.

(** What the cache slot holds, if anything, came from the asset files. *)
Definition cache_inv (fs : AssetFiles) (p : Process) : Prop :=
  match cache p with
  | Some v => assets_from fs v
  | None => True
  end.

(** The state of the process after the runs of a list of forms. *)
Definition state_after (fs : AssetFiles) (forms : list Form) (p : Process) : Process :=
  fold_left (fun q f => final (script fs f q)) forms p.

(** The [joblib.load] calls of one pass over the asset files. *)
Definition load_calls : list event :=
  EvLoad model_path :: map (fun col => EvLoad (encoder_path col)) encoder_cols.

(** The [joblib.load] calls among the events of a run. *)
Definition load_events (tr : list event) : list event := List.filter is_load tr.

(** The identities of the five loaded objects. *)
Definition asset_oids (v : Assets) : list nat :=
  oid (a_model v) :: omap (fun col => oid <$> a_encoders v !! col) encoder_cols.

(** ** Vocabulary of the further properties *)

(** The first element of a list that fails a test, with its position. *)
Fixpoint first_failing {A} (ok : A -> bool) (l : list A) : option (nat * A) :=
  match l with
  | [] => None
  | x :: rest =>
      if ok x then
        match first_failing ok rest with
        | Some (n, y) => Some (S n, y)
        | None => None
        end
      else Some (O, x)
  end.

(** The files [load_assets] opens, in its order, each with whether it is
    there. *)
Definition load_plan (fs : AssetFiles) : list (string * bool) :=
  (model_path,
   match scorer_files fs !! model_path with Some _ => true | None => false end)
  :: map (fun col =>
            (encoder_path col,
             match encoder_files fs !! encoder_path col with
             | Some _ => true
             | None => false
             end))
         encoder_cols.

(** The asset file of each categorical column knows every option of the
    column's select box. *)
Definition files_fitted_on_form (fs : AssetFiles) : bool :=
  let known col label :=
    match file_code fs col label with Some _ => true | None => false end in
  forallb (known "Sex") sex_options
  && forallb (known "Housing") housing_options
  && forallb (known "Saving accounts") saving_options
  && forallb (known "Checking account") checking_options.

(** The scorer's probability call on [df] answers as section 4.3 of the
    specification says: a vector for row 0 with one probability, a number
    of [0, 1], per class. *)
Definition proba_contract (model : Scorer) (df : DataFrame) : Prop :=
  match predict_proba model with
  | None => True
  | Some f =>
      exists proba rows,
        f df = Ok (proba :: rows) /\
        length proba = length (classes_ model) /\
        forallb in_unit proba = true
  end.

(** Asset files with the Housing encoder missing, asset files with nothing
    in them, and a record with two labels no select box offers. *)
Definition files_without_housing : AssetFiles :=
  {| scorer_files := {[ model_path := Samples.scorer_with_proba ]};
     encoder_files :=
       list_to_map [ (encoder_path "Sex", Samples.sex_encoder);
                     (encoder_path "Saving accounts", Samples.saving_encoder);
                     (encoder_path "Checking account", Samples.checking_encoder) ] |}.

(** The sample asset files with a model whose probabilities are NaN. *)
Definition files_nan : AssetFiles :=
  {| scorer_files := {[ model_path := Samples.scorer_nan ]};
     encoder_files := encoder_files Samples.files |}.

Definition no_files : AssetFiles :=
  {| scorer_files := ∅; encoder_files := ∅ |}.

Definition applicant_two_unknown : Applicant :=
  {| age := 30; sex := "male"; job := 1; housing := "squat";
     saving_accounts := "little"; checking_account := "overdrawn";
     credit_amount := 1000; duration := 12 |}.

(** ** Properties of the float comparisons *)

Section FloatFacts.

(** Swapping the arguments of a comparison swaps its answer. *)
Lemma SFcompare_swap (x y : float) :
  SFcompare y x = option_map CompOpp (SFcompare x y).
Proof.
  destruct x as [sx | sx | | sx mx ex], y as [sy | sy | | sy my ey];
    cbn [SFcompare option_map]; try reflexivity;
    try (destruct sx; reflexivity); try (destruct sy; reflexivity);
    try (destruct sx, sy; reflexivity).
  destruct sx, sy; cbn [CompOpp]; try reflexivity;
    rewrite (Z.compare_antisym ex ey);
    replace (Pos.compare_cont Eq my mx) with (CompOpp (Pos.compare_cont Eq mx my))
      by apply (Pos.compare_cont_antisym mx my Eq);
    destruct (ex ?= ey); cbn [CompOpp]; try reflexivity;
    destruct (Pos.compare_cont Eq mx my); reflexivity.
Qed.

Lemma SFcompare_defined (x y : float) :
  is_nan x = false -> is_nan y = false -> exists c, SFcompare x y = Some c.
Proof.
  destruct x, y; cbn [is_nan SFcompare]; intros Hx Hy;
    try discriminate; eexists; reflexivity.
Qed.

(** Among numbers, [a] not below [b] means [b <= a]. *)
Lemma not_ltb_leb (a b : float) :
  is_nan a = false -> is_nan b = false -> ltb a b = false -> leb b a = true.
Proof.
  intros Ha Hb. unfold ltb, leb, SFltb, SFleb.
  rewrite (SFcompare_swap a b).
  destruct (SFcompare_defined a b Ha Hb) as [c ->].
  destruct c; cbn [option_map CompOpp]; congruence.
Qed.

Lemma zero_in_unit : in_unit f0 = true.
Proof. vm_compute. reflexivity. Qed.

Lemma one_in_unit : in_unit f1 = true.
Proof. vm_compute. reflexivity. Qed.

(** The clamp of line 165 keeps every number inside [0.0, 1.0]. *)
Lemma progress_value_in_unit (pg : float) :
  is_nan pg = false -> in_unit (progress_value pg) = true.
Proof.
  intros Hnan. unfold progress_value, py_max, py_min, gtb.
  destruct (ltb pg f0) eqn:Hlow.
  - replace (ltb f1 f0) with false by (vm_compute; reflexivity).
    apply zero_in_unit.
  - destruct (ltb f1 pg) eqn:Hhigh.
    + apply one_in_unit.
    + unfold in_unit.
      rewrite (not_ltb_leb pg f0 Hnan eq_refl Hlow).
      rewrite (not_ltb_leb f1 pg eq_refl Hnan Hhigh). reflexivity.
Qed.

Lemma ltb_nan_l (y : float) : ltb S754_nan y = false.
Proof. reflexivity. Qed.

Lemma ltb_nan_r (x : float) : ltb x S754_nan = false.
Proof. destruct x; reflexivity. Qed.

(** A NaN goes through the clamp unchanged, and only a NaN comes out of it
    as one. *)
Lemma progress_value_nan (pg : float) :
  is_nan (progress_value pg) = is_nan pg.
Proof.
  unfold progress_value, py_max, py_min, gtb.
  destruct pg as [s | s | | s m e];
    try (rewrite ltb_nan_l, ltb_nan_r; reflexivity);
    repeat match goal with
           | |- context [if ?b then _ else _] => destruct b
           end; reflexivity.
Qed.


End FloatFacts.

(** ** Runs of the request handler *)

Section HandlerFacts.

Lemma bind_run {A B} (m : M A) (k : A -> M B) (p q : Process)
    (ev : list event) (o : result A) :
  m p = {| events := ev; final := q; outcome := o |} ->
  bind m k p =
    match o with
    | Ok a => {| events := ev ++ events (k a q);
                 final := final (k a q);
                 outcome := outcome (k a q) |}
    | Err e => {| events := ev; final := q; outcome := Err e |}
    end.
Proof. intros H. unfold bind. rewrite H. destruct o; reflexivity. Qed.

Lemma bind_emit {B} (e : event) (k : unit -> M B) (p : Process) :
  bind (emit e) k p =
    {| events := e :: events (k tt p);
       final := final (k tt p);
       outcome := outcome (k tt p) |}.
Proof. reflexivity. Qed.

Lemma run_eta {A} (r : Run A) :
  r = {| events := events r; final := final r; outcome := outcome r |}.
Proof. destruct r; reflexivity. Qed.

Lemma py_index_in (x : Z) (xs : list Z) :
  py_in x xs = true -> exists i, py_index x xs = Some i /\ xs !! i = Some x.
Proof.
  induction xs as [| y rest IH]; cbn [py_in existsb py_index]; [discriminate |].
  rewrite (Z.eqb_sym x y). destruct (Z.eqb y x) eqn:E.
  - intros _. exists O. apply Z.eqb_eq in E. subst. split; reflexivity.
  - cbn [orb]. intros H. destruct (IH H) as (i & Hi & Hl).
    exists (S i). rewrite Hi. split; [reflexivity | exact Hl].
Qed.

(** One encoder lookup: a missing encoder raises before any call, an
    unknown label raises out of the call. *)
Lemma encode_field_run (encoders : gmap string Encoder) (col label : string)
    (p : Process) :
  encode_field encoders col label p =
    match encoders !! col with
    | None => {| events := []; final := p; outcome := Err (KeyError col) |}
    | Some enc =>
        {| events := [EvTransform col [label]];
           final := p;
           outcome := match codes enc !! label with
                      | Some c => Ok c
                      | None => Err (UnknownCategory label)
                      end |}
    end.
Proof.
  unfold encode_field, dict_getitem, bind.
  destruct (encoders !! col) as [enc |]; cbn; [| reflexivity].
  destruct (codes enc !! label); reflexivity.
Qed.

Lemma encode_field_known (encoders : gmap string Encoder) (col label : string)
    (p : Process) (c : Z) :
  code_of encoders col label = Some c ->
  encode_field encoders col label p =
    {| events := [EvTransform col [label]]; final := p; outcome := Ok c |}.
Proof.
  unfold code_of. rewrite encode_field_run.
  destruct (encoders !! col); [| discriminate]. intros ->. reflexivity.
Qed.

Lemma encode_field_unknown (encoders : gmap string Encoder) (col label : string)
    (p : Process) :
  is_Some (encoders !! col) -> knows encoders col label = false ->
  encode_field encoders col label p =
    {| events := [EvTransform col [label]]; final := p;
       outcome := Err (UnknownCategory label) |}.
Proof.
  unfold knows, code_of. rewrite encode_field_run. intros [enc ->].
  destruct (codes enc !! label); [discriminate | reflexivity].
Qed.

Lemma encode_field_inv (encoders : gmap string Encoder) (col label : string)
    (p : Process) (c : Z) :
  outcome (encode_field encoders col label p) = Ok c ->
  code_of encoders col label = Some c.
Proof.
  unfold code_of. rewrite encode_field_run.
  destruct (encoders !! col) as [enc |]; cbn; [| discriminate].
  destruct (codes enc !! label); congruence.
Qed.

Lemma knows_code (encoders : gmap string Encoder) (col label : string) :
  knows encoders col label = true -> exists c, code_of encoders col label = Some c.
Proof. unfold knows. destruct (code_of encoders col label); eauto. discriminate. Qed.

End HandlerFacts.

Section HandlerRuns.

Variable model : Scorer.
Variable encoders : gmap string Encoder.
Variable a : Applicant.

Lemma encode_field_final (col label : string) (p : Process) :
  final (encode_field encoders col label p) = p.
Proof.
  rewrite encode_field_run. destruct (encoders !! col); reflexivity.
Qed.

Lemma bind_final {A B} (m : M A) (k : A -> M B) (p : Process) :
  final (m p) = p -> (forall x, final (k x p) = p) -> final (bind m k p) = p.
Proof.
  intros Hm Hk. unfold bind. destruct (outcome (m p)); cbn [final].
  - rewrite Hm. apply Hk.
  - exact Hm.
Qed.

Lemma build_input_df_final (p : Process) :
  final (build_input_df encoders a p) = p.
Proof.
  unfold build_input_df.
  repeat (apply bind_final; [apply encode_field_final | intros ?]).
  reflexivity.
Qed.

Lemma build_input_df_known (p : Process) (sex_c housing_c saving_c checking_c : Z) :
  code_of encoders "Sex" (sex a) = Some sex_c ->
  code_of encoders "Housing" (housing a) = Some housing_c ->
  code_of encoders "Saving accounts" (saving_accounts a) = Some saving_c ->
  code_of encoders "Checking account" (checking_account a) = Some checking_c ->
  build_input_df encoders a p =
    {| events := transform_calls a;
       final := p;
       outcome := Ok [ ("Age", [age a]);
                       ("Sex", [sex_c]);
                       ("Job", [job a]);
                       ("Housing", [housing_c]);
                       ("Saving accounts", [saving_c]);
                       ("Checking account", [checking_c]);
                       ("Credit amount", [credit_amount a]);
                       ("Duration", [duration a]) ] |}.
Proof.
  intros H1 H2 H3 H4. unfold build_input_df.
  rewrite (bind_run _ _ _ _ _ _ (encode_field_known _ _ _ p _ H1)).
  rewrite (bind_run _ _ _ _ _ _ (encode_field_known _ _ _ p _ H2)).
  rewrite (bind_run _ _ _ _ _ _ (encode_field_known _ _ _ p _ H3)).
  rewrite (bind_run _ _ _ _ _ _ (encode_field_known _ _ _ p _ H4)).
  reflexivity.
Qed.

Lemma build_input_df_inv (p : Process) (df : DataFrame) :
  outcome (build_input_df encoders a p) = Ok df ->
  exists sex_c housing_c saving_c checking_c,
    code_of encoders "Sex" (sex a) = Some sex_c /\
    code_of encoders "Housing" (housing a) = Some housing_c /\
    code_of encoders "Saving accounts" (saving_accounts a) = Some saving_c /\
    code_of encoders "Checking account" (checking_account a) = Some checking_c.
Proof.
  unfold build_input_df.
  pose proof (run_eta (encode_field encoders "Sex" (sex a) p)) as R1.
  rewrite encode_field_final in R1. rewrite (bind_run _ _ _ _ _ _ R1).
  destruct (outcome (encode_field encoders "Sex" (sex a) p))
    as [c1 |] eqn:E1; [| discriminate].
  pose proof (run_eta (encode_field encoders "Housing" (housing a) p)) as R2.
  rewrite encode_field_final in R2. rewrite (bind_run _ _ _ _ _ _ R2).
  destruct (outcome (encode_field encoders "Housing" (housing a) p))
    as [c2 |] eqn:E2; [| discriminate].
  pose proof (run_eta (encode_field encoders "Saving accounts" (saving_accounts a) p))
    as R3.
  rewrite encode_field_final in R3. rewrite (bind_run _ _ _ _ _ _ R3).
  destruct (outcome (encode_field encoders "Saving accounts" (saving_accounts a) p))
    as [c3 |] eqn:E3; [| discriminate].
  pose proof (run_eta (encode_field encoders "Checking account" (checking_account a) p))
    as R4.
  rewrite encode_field_final in R4. rewrite (bind_run _ _ _ _ _ _ R4).
  destruct (outcome (encode_field encoders "Checking account" (checking_account a) p))
    as [c4 |] eqn:E4; [| discriminate].
  intros _. exists c1, c2, c3, c4.
  repeat split; eapply encode_field_inv; eassumption.
Qed.

(** An unknown label ends the assembly in the encoder call that meets it:
    only encoder calls were made, at most the four of a full assembly. *)
Lemma build_input_df_unknown (p : Process) :
  bank_complete encoders = true ->
  knows encoders "Sex" (sex a)
    && knows encoders "Housing" (housing a)
    && knows encoders "Saving accounts" (saving_accounts a)
    && knows encoders "Checking account" (checking_account a) = false ->
  exists n col label,
    build_input_df encoders a p =
      {| events := take n (transform_calls a);
         final := p;
         outcome := Err (UnknownCategory label) |}
    /\ In (col, label) (categorical_fields a)
    /\ knows encoders col label = false.
Proof.
  unfold bank_complete, encoder_cols. cbn [forallb].
  destruct (encoders !! "Sex") as [e1 |] eqn:B1; [| discriminate].
  destruct (encoders !! "Housing") as [e2 |] eqn:B2; [| discriminate].
  destruct (encoders !! "Saving accounts") as [e3 |] eqn:B3; [| discriminate].
  destruct (encoders !! "Checking account") as [e4 |] eqn:B4; [| discriminate].
  intros _ Hunknown. unfold build_input_df.
  destruct (knows encoders "Sex" (sex a)) eqn:K1.
  2:{ exists 1%nat, "Sex", (sex a).
      rewrite (bind_run _ _ _ _ _ _
                 (encode_field_unknown _ _ _ _ (ltac:(rewrite B1; eauto)) K1)).
      split; [reflexivity | split; [cbn; auto | exact K1]]. }
  destruct (knows_code _ _ _ K1) as [c1 C1].
  rewrite (bind_run _ _ _ _ _ _ (encode_field_known _ _ _ p _ C1)).
  destruct (knows encoders "Housing" (housing a)) eqn:K2.
  2:{ exists 2%nat, "Housing", (housing a).
      rewrite (bind_run _ _ _ _ _ _
                 (encode_field_unknown _ _ _ _ (ltac:(rewrite B2; eauto)) K2)).
      split; [reflexivity | split; [cbn; auto | exact K2]]. }
  destruct (knows_code _ _ _ K2) as [c2 C2].
  rewrite (bind_run _ _ _ _ _ _ (encode_field_known _ _ _ p _ C2)).
  destruct (knows encoders "Saving accounts" (saving_accounts a)) eqn:K3.
  2:{ exists 3%nat, "Saving accounts", (saving_accounts a).
      rewrite (bind_run _ _ _ _ _ _
                 (encode_field_unknown _ _ _ _ (ltac:(rewrite B3; eauto)) K3)).
      split; [reflexivity | split; [cbn; auto | exact K3]]. }
  destruct (knows_code _ _ _ K3) as [c3 C3].
  rewrite (bind_run _ _ _ _ _ _ (encode_field_known _ _ _ p _ C3)).
  destruct (knows encoders "Checking account" (checking_account a)) eqn:K4;
    [discriminate |].
  exists 4%nat, "Checking account", (checking_account a).
  rewrite (bind_run _ _ _ _ _ _
             (encode_field_unknown _ _ _ _ (ltac:(rewrite B4; eauto)) K4)).
  split; [reflexivity | split; [cbn; auto | exact K4]].
Qed.

(** The probability stage leaves the process alone and calls the scorer at
    most once. *)
Lemma read_proba_good_run (df : DataFrame) (p : Process) :
  read_proba_good model df p =
    match predict_proba model with
    | None => {| events := []; final := p; outcome := Ok None |}
    | Some f =>
        {| events := [EvPredictProba df];
           final := p;
           outcome :=
             match f df with
             | Err e => Err e
             | Ok [] => Err IndexError
             | Ok (proba :: _) =>
                 if py_in 1 (classes_ model) then
                   match py_index 1 (classes_ model) with
                   | Some i =>
                       match proba !! i with
                       | Some x => Ok (Some x)
                       | None => Err IndexError
                       end
                   | None => Err ValueError
                   end
                 else Ok None
             end |}
    end.
Proof.
  unfold read_proba_good. destruct (predict_proba model) as [f |]; [| reflexivity].
  unfold bind, emit, lift, good_entry, py_getitem. cbn [outcome final events].
  destruct (f df) as [[| proba rows] | e]; cbn; try reflexivity.
  destruct (py_in 1 (classes_ model)); cbn; [| reflexivity].
  destruct (py_index 1 (classes_ model)) as [i |]; cbn; [| reflexivity].
  destruct (proba !! i); reflexivity.
Qed.

Lemma read_proba_good_well_formed (df : DataFrame) (p : Process) :
  proba_well_formed model df ->
  exists pg, outcome (read_proba_good model df p) = Ok pg.
Proof.
  unfold proba_well_formed. rewrite read_proba_good_run.
  destruct (predict_proba model) as [f |]; [| eauto].
  intros (proba & rows & -> & Hlen). cbn [outcome].
  destruct (py_in 1 (classes_ model)) eqn:Hin; [| eauto].
  destruct (py_index_in _ _ Hin) as (i & Hi & _). rewrite Hi.
  destruct (lookup_lt_is_Some_2 proba i (Hlen i Hi)) as [x ->]. eauto.
Qed.

Lemma show_proba_run (pg : option float) (p : Process) :
  show_proba pg (proba_bad_of pg) p =
    {| events := proba_display pg;
       final := p;
       outcome := if progress_accepts pg then Ok tt else Err StreamlitAPIException |}.
Proof.
  destruct pg as [x |]; [| reflexivity].
  cbn [proba_bad_of show_proba progress_accepts proba_display].
  rewrite bind_emit. unfold st_progress. rewrite bind_emit.
  destruct (in_unit (progress_value x)); reflexivity.
Qed.

Lemma show_verdict_run (label : Z) (p : Process) :
  show_verdict label p =
    {| events := [verdict_event label]; final := p; outcome := Ok tt |}.
Proof. unfold show_verdict, verdict_event. destruct (Z.eqb label 1); reflexivity. Qed.

Lemma call_predict_run (df : DataFrame) (p : Process) :
  call_predict model df p =
    {| events := [EvPredict df];
       final := p;
       outcome := match predict model df with
                  | Ok (label :: _) => Ok label
                  | Ok [] => Err IndexError
                  | Err e => Err e
                  end |}.
Proof.
  unfold call_predict. rewrite bind_emit.
  destruct (predict model df) as [[| label rest] | e]; reflexivity.
Qed.

Lemma read_proba_good_final (df : DataFrame) (p : Process) :
  final (read_proba_good model df p) = p.
Proof. rewrite read_proba_good_run. destruct (predict_proba model); reflexivity. Qed.

(** The handler, stage by stage. *)
Lemma on_submit_run (p : Process) :
  on_submit model encoders a p =
    let r1 := build_input_df encoders a p in
    match outcome r1 with
    | Err e => {| events := events r1; final := p; outcome := Err e |}
    | Ok df =>
        match predict model df with
        | Err e =>
            {| events := events r1 ++ [EvPredict df]; final := p; outcome := Err e |}
        | Ok [] =>
            {| events := events r1 ++ [EvPredict df]; final := p;
               outcome := Err IndexError |}
        | Ok (label :: _) =>
            let r3 := read_proba_good model df p in
            match outcome r3 with
            | Err e =>
                {| events := events r1 ++ EvPredict df :: events r3;
                   final := p; outcome := Err e |}
            | Ok pg =>
                {| events := events r1 ++ EvPredict df :: events r3
                               ++ handler_displays a df label pg;
                   final := p;
                   outcome := if progress_accepts pg
                              then Ok {| input_df := df; pred := label;
                                         proba_good := pg;
                                         proba_bad := proba_bad_of pg |}
                              else Err StreamlitAPIException |}
            end
        end
    end.
Proof.
  cbv zeta. unfold on_submit.
  pose proof (run_eta (build_input_df encoders a p)) as E1.
  rewrite build_input_df_final in E1.
  rewrite (bind_run _ _ _ _ _ _ E1).
  destruct (outcome (build_input_df encoders a p)) as [df | e]; [| reflexivity].
  rewrite (bind_run _ _ _ _ _ _ (call_predict_run df p)).
  destruct (predict model df) as [[| label rest] | e]; try reflexivity.
  cbn [events final outcome]. f_equal.
  pose proof (run_eta (read_proba_good model df p)) as E3.
  rewrite read_proba_good_final in E3.
  rewrite (bind_run _ _ _ _ _ _ E3).
  destruct (outcome (read_proba_good model df p)) as [pg | e]; [| reflexivity].
  rewrite (bind_run _ _ _ _ _ _ (show_verdict_run label p)).
  rewrite !bind_emit.
  rewrite (bind_run _ _ _ _ _ _ (show_proba_run pg p)).
  unfold handler_displays.
  destruct (progress_accepts pg); [rewrite bind_emit |];
    cbn [events final outcome ret]; rewrite ?app_nil_r; reflexivity.
Qed.

End HandlerRuns.

Section HandlerOutcomes.

Variable model : Scorer.
Variable encoders : gmap string Encoder.
Variable a : Applicant.
Variable p : Process.

Lemma build_input_df_ok_events (df : DataFrame) :
  outcome (build_input_df encoders a p) = Ok df ->
  events (build_input_df encoders a p) = transform_calls a.
Proof.
  intros H. destruct (build_input_df_inv _ _ _ _ H) as (c1 & c2 & c3 & c4 & H1 & H2 & H3 & H4).
  rewrite (build_input_df_known _ _ _ _ _ _ _ H1 H2 H3 H4). reflexivity.
Qed.

Lemma read_proba_good_events (df : DataFrame) :
  events (read_proba_good model df p) = proba_call model df.
Proof.
  rewrite read_proba_good_run. unfold proba_call.
  destruct (predict_proba model); reflexivity.
Qed.

(** A handler whose three stages succeed runs to its end. *)
Lemma on_submit_completes (df : DataFrame) (label : Z) (rest : list Z)
    (pg : option float) :
  outcome (build_input_df encoders a p) = Ok df ->
  predict model df = Ok (label :: rest) ->
  outcome (read_proba_good model df p) = Ok pg ->
  progress_accepts pg = true ->
  on_submit model encoders a p =
    {| events := transform_calls a ++ EvPredict df :: proba_call model df
                   ++ display_events a df label pg;
       final := p;
       outcome := Ok {| input_df := df; pred := label; proba_good := pg;
                        proba_bad := proba_bad_of pg |} |}.
Proof.
  intros H1 H2 H3 H4. rewrite on_submit_run. cbv zeta.
  rewrite H1, H2, H3, (build_input_df_ok_events _ H1), read_proba_good_events.
  unfold handler_displays. rewrite H4. reflexivity.
Qed.

(** A handler whose three stages succeed and whose progress bar refuses
    the clamp of P(GOOD) ends there, the verdict and the metrics shown. *)
Lemma on_submit_refused (df : DataFrame) (label : Z) (rest : list Z)
    (pg : option float) :
  outcome (build_input_df encoders a p) = Ok df ->
  predict model df = Ok (label :: rest) ->
  outcome (read_proba_good model df p) = Ok pg ->
  progress_accepts pg = false ->
  on_submit model encoders a p =
    {| events := transform_calls a ++ EvPredict df :: proba_call model df
                   ++ verdict_event label
                      :: EvMetric "Credit Amount" (MInt (credit_amount a))
                      :: EvMetric "Duration (months)" (MInt (duration a))
                      :: proba_display pg;
       final := p;
       outcome := Err StreamlitAPIException |}.
Proof.
  intros H1 H2 H3 H4. rewrite on_submit_run. cbv zeta.
  rewrite H1, H2, H3, (build_input_df_ok_events _ H1), read_proba_good_events.
  unfold handler_displays. rewrite H4, app_nil_r. reflexivity.
Qed.

(** A handler that ran to its end went through its three stages. *)
Lemma on_submit_inv (l : Locals) :
  outcome (on_submit model encoders a p) = Ok l ->
  exists rest,
    outcome (build_input_df encoders a p) = Ok (input_df l) /\
    predict model (input_df l) = Ok (pred l :: rest) /\
    outcome (read_proba_good model (input_df l) p) = Ok (proba_good l) /\
    proba_bad l = proba_bad_of (proba_good l).
Proof.
  rewrite on_submit_run. cbv zeta.
  destruct (outcome (build_input_df encoders a p)) as [df | e]; [| discriminate].
  destruct (predict model df) as [[| label rest] | e] eqn:E2; try discriminate.
  destruct (outcome (read_proba_good model df p)) as [pg | e] eqn:E3;
    [| discriminate].
  cbn [outcome]. destruct (progress_accepts pg); [| discriminate].
  intros [= <-]. cbn [input_df pred proba_good proba_bad].
  exists rest. auto.
Qed.

(** A handler that ran to its end had its progress value taken. *)
Lemma on_submit_ok_accepts (l : Locals) :
  outcome (on_submit model encoders a p) = Ok l ->
  progress_accepts (proba_good l) = true.
Proof.
  rewrite on_submit_run. cbv zeta.
  destruct (outcome (build_input_df encoders a p)) as [df | e]; [| discriminate].
  destruct (predict model df) as [[| label rest] | e]; try discriminate.
  destruct (outcome (read_proba_good model df p)) as [pg | e]; [| discriminate].
  cbn [outcome]. destruct (progress_accepts pg) eqn:Hacc; [| discriminate].
  intros [= <-]. exact Hacc.
Qed.

Lemma verdicts_transform_calls : verdicts (transform_calls a) = [].
Proof. reflexivity. Qed.

Lemma verdicts_proba_call (df : DataFrame) : verdicts (proba_call model df) = [].
Proof. unfold proba_call. destruct (predict_proba model); reflexivity. Qed.

Lemma verdict_of_event_verdict (label : Z) :
  verdict_of_event (verdict_event label) = Some (verdict_of_label label).
Proof.
  unfold verdict_event, verdict_of_label. destruct (Z.eqb label 1); reflexivity.
Qed.

Lemma verdicts_cons (e : event) (tr : list event) :
  verdicts (e :: tr) =
    match verdict_of_event e with
    | Some v => v :: verdicts tr
    | None => verdicts tr
    end.
Proof. reflexivity. Qed.

Lemma verdicts_app (tr1 tr2 : list event) :
  verdicts (tr1 ++ tr2) = verdicts tr1 ++ verdicts tr2.
Proof. apply omap_app. Qed.

Lemma verdicts_display (df : DataFrame) (label : Z) (pg : option float) :
  verdicts (display_events a df label pg) = [verdict_of_label label].
Proof.
  unfold display_events. rewrite verdicts_cons, verdict_of_event_verdict.
  rewrite !verdicts_cons. cbn [verdict_of_event].
  rewrite verdicts_app. destruct pg; reflexivity.
Qed.

Lemma verdicts_handler_displays (df : DataFrame) (label : Z) (pg : option float) :
  verdicts (handler_displays a df label pg) = [verdict_of_label label].
Proof.
  unfold handler_displays. rewrite verdicts_cons, verdict_of_event_verdict.
  rewrite !verdicts_cons. cbn [verdict_of_event].
  rewrite verdicts_app. destruct pg as [x |]; cbn [progress_accepts proba_display];
    [destruct (in_unit (progress_value x)) |]; reflexivity.
Qed.

Lemma verdicts_take_transform_calls (n : nat) :
  verdicts (take n (transform_calls a)) = [].
Proof. do 5 (destruct n as [| n]; try reflexivity). Qed.

End HandlerOutcomes.

Lemma in_options_forallb (f : string -> bool) (s : string) (opts : list string) :
  in_options s opts = true -> forallb f opts = true -> f s = true.
Proof.
  unfold in_options. rewrite existsb_exists, forallb_forall.
  intros (x & Hin & Heq) Hall. apply String.eqb_eq in Heq. subst x. auto.
Qed.

Lemma verdict_good_iff (label : Z) : verdict_of_label label = GOOD <-> label = 1.
Proof.
  unfold verdict_of_label. destruct (Z.eqb label 1) eqn:E.
  - apply Z.eqb_eq in E. tauto.
  - apply Z.eqb_neq in E. split; [discriminate | tauto].
Qed.

Lemma verdict_bad_iff (label : Z) : verdict_of_label label = BAD <-> label <> 1.
Proof.
  unfold verdict_of_label. destruct (Z.eqb label 1) eqn:E.
  - apply Z.eqb_eq in E. split; [discriminate | tauto].
  - apply Z.eqb_neq in E. tauto.
Qed.

Section EventFacts.

Variable model : Scorer.
Variable encoders : gmap string Encoder.
Variable a : Applicant.
Variable p : Process.

Lemma forallb_bind_events {A B} (P : event -> bool) (m : M A) (k : A -> M B) :
  forallb P (events (m p)) = true ->
  (forall x q, forallb P (events (k x q)) = true) ->
  forallb P (events (bind m k p)) = true.
Proof.
  intros Hm Hk. unfold bind. destruct (outcome (m p)); cbn [events].
  - rewrite forallb_app, Hm, Hk. reflexivity.
  - exact Hm.
Qed.

Lemma encode_field_events_transform (col label : string) (q : Process) :
  forallb is_transform (events (encode_field encoders col label q)) = true.
Proof. rewrite encode_field_run. destruct (encoders !! col); reflexivity. Qed.

(** The assembly of the table talks to the encoders only. *)
Lemma build_input_df_events_transform :
  forallb is_transform (events (build_input_df encoders a p)) = true.
Proof.
  unfold build_input_df.
  apply forallb_bind_events; [apply encode_field_events_transform | intros c1 q1].
  unfold bind at 1.
  destruct (outcome (encode_field encoders "Housing" (housing a) q1)) eqn:E2;
    cbn [events]; [| apply encode_field_events_transform].
  rewrite forallb_app, encode_field_events_transform. cbn [andb].
  unfold bind at 1.
  destruct (outcome (encode_field encoders "Saving accounts" (saving_accounts a) _))
    eqn:E3; cbn [events]; [| apply encode_field_events_transform].
  rewrite forallb_app, encode_field_events_transform. cbn [andb].
  unfold bind at 1.
  destruct (outcome (encode_field encoders "Checking account" (checking_account a) _))
    eqn:E4; cbn [events]; [| apply encode_field_events_transform].
  rewrite forallb_app, encode_field_events_transform. reflexivity.
Qed.

Lemma transform_not_progress (tr : list event) (v : float) :
  forallb is_transform tr = true -> ~ In (EvProgress v) tr.
Proof.
  rewrite forallb_forall. intros H Hin. specialize (H _ Hin). discriminate.
Qed.

Lemma proba_call_not_progress (df : DataFrame) (v : float) :
  ~ In (EvProgress v) (proba_call model df).
Proof.
  unfold proba_call. destruct (predict_proba model); cbn; intuition discriminate.
Qed.

(** A progress event of the handler carries the clamp of the P(GOOD) read
    from the scorer, after the table was built and labelled. *)
Lemma progress_event_origin (v : float) :
  In (EvProgress v) (events (on_submit model encoders a p)) ->
  exists df label rest pg,
    outcome (build_input_df encoders a p) = Ok df /\
    predict model df = Ok (label :: rest) /\
    outcome (read_proba_good model df p) = Ok (Some pg) /\
    v = progress_value pg.
Proof.
  rewrite on_submit_run. cbv zeta.
  pose proof build_input_df_events_transform as Ht.
  destruct (outcome (build_input_df encoders a p)) as [df | e].
  2:{ cbn [events]. intros Hin. destruct (transform_not_progress _ _ Ht Hin). }
  assert (Hpre : forall tail,
             In (EvProgress v) (events (build_input_df encoders a p)
                                  ++ EvPredict df :: tail) ->
             In (EvProgress v) tail).
  { intros tail Hin. apply in_app_or in Hin. destruct Hin as [Hin | Hin].
    - destruct (transform_not_progress _ _ Ht Hin).
    - destruct Hin as [Hin | Hin]; [discriminate | exact Hin]. }
  destruct (predict model df) as [[| label rest] | e] eqn:E2; cbn [events];
    try (intros Hin; apply (Hpre []) in Hin; destruct Hin).
  rewrite read_proba_good_events.
  destruct (outcome (read_proba_good model df p)) as [pg | e] eqn:E3;
    cbn [events outcome]; intros Hin; apply Hpre in Hin.
  2:{ destruct (proba_call_not_progress _ _ Hin). }
  apply in_app_or in Hin. destruct Hin as [Hin | Hin];
    [destruct (proba_call_not_progress _ _ Hin) |].
  unfold handler_displays in Hin.
  destruct Hin as [Hin | [Hin | [Hin | Hin]]];
    try discriminate.
  { unfold verdict_event in Hin. destruct (Z.eqb label 1); discriminate. }
  apply in_app_or in Hin. destruct Hin as [Hin | Hin].
  - destruct pg as [x |]; [| destruct Hin].
    destruct Hin as [Hin | [Hin | []]]; [discriminate |].
    injection Hin as <-. exists df, label, rest, x. auto.
  - destruct (progress_accepts pg); [destruct Hin as [Hin | []]; discriminate |].
    destruct Hin.
Qed.

End EventFacts.

(** ** The claims about the request handler *)

(** C1. For every valid applicant record (numbers within their bounds, labels
    among the options of the form, which the encoders were fitted on) the
    assembly produces one table of one row with exactly the eight columns
    Age, Sex, Job, Housing, Saving accounts, Checking account, Credit amount
    and Duration in that order; the four categorical cells hold the integer
    codes of their encoders and the four numeric cells the submitted
    numbers unchanged. *)
Theorem feature_assembly_eight_columns
    (encoders : gmap string Encoder) (a : Applicant) (p : Process) :
  valid_applicant a = true ->
  fitted_on_form encoders = true ->
  exists sex_c housing_c saving_c checking_c,
    code_of encoders "Sex" (sex a) = Some sex_c /\
    code_of encoders "Housing" (housing a) = Some housing_c /\
    code_of encoders "Saving accounts" (saving_accounts a) = Some saving_c /\
    code_of encoders "Checking account" (checking_account a) = Some checking_c /\
    outcome (build_input_df encoders a p) =
      Ok [ ("Age", [age a]);
           ("Sex", [sex_c]);
           ("Job", [job a]);
           ("Housing", [housing_c]);
           ("Saving accounts", [saving_c]);
           ("Checking account", [checking_c]);
           ("Credit amount", [credit_amount a]);
           ("Duration", [duration a]) ].
Proof.
  unfold valid_applicant, fitted_on_form. intros Hvalid Hfit.
  do 9 (apply andb_prop in Hvalid; destruct Hvalid as [Hvalid ?]).
  do 3 (apply andb_prop in Hfit; destruct Hfit as [Hfit ?]).
  destruct (knows_code encoders "Sex" (sex a)) as [c1 C1];
    [apply (in_options_forallb (knows encoders "Sex") (sex a) sex_options); assumption |].
  destruct (knows_code encoders "Housing" (housing a)) as [c2 C2];
    [apply (in_options_forallb (knows encoders "Housing") (housing a) housing_options); assumption |].
  destruct (knows_code encoders "Saving accounts" (saving_accounts a)) as [c3 C3];
    [apply (in_options_forallb (knows encoders "Saving accounts") (saving_accounts a) saving_options); assumption |].
  destruct (knows_code encoders "Checking account" (checking_account a)) as [c4 C4];
    [apply (in_options_forallb (knows encoders "Checking account") (checking_account a) checking_options); assumption |].
  exists c1, c2, c3, c4. repeat (split; [assumption |]).
  rewrite (build_input_df_known _ _ _ _ _ _ _ C1 C2 C3 C4). reflexivity.
Qed.

Lemma feature_assembly_eight_columns_witness :
  valid_applicant Samples.applicant_1000 = true /\
  fitted_on_form Samples.encoders = true /\
  exists sex_c housing_c saving_c checking_c,
    code_of Samples.encoders "Sex" (sex Samples.applicant_1000) = Some sex_c /\
    code_of Samples.encoders "Housing" (housing Samples.applicant_1000)
      = Some housing_c /\
    code_of Samples.encoders "Saving accounts"
      (saving_accounts Samples.applicant_1000) = Some saving_c /\
    code_of Samples.encoders "Checking account"
      (checking_account Samples.applicant_1000) = Some checking_c /\
    outcome (build_input_df Samples.encoders Samples.applicant_1000 fresh_process) =
      Ok [ ("Age", [age Samples.applicant_1000]);
           ("Sex", [sex_c]);
           ("Job", [job Samples.applicant_1000]);
           ("Housing", [housing_c]);
           ("Saving accounts", [saving_c]);
           ("Checking account", [checking_c]);
           ("Credit amount", [credit_amount Samples.applicant_1000]);
           ("Duration", [duration Samples.applicant_1000]) ].
Proof.
  split; [vm_compute; reflexivity |].
  split; [vm_compute; reflexivity |].
  apply (feature_assembly_eight_columns
           Samples.encoders Samples.applicant_1000 fresh_process);
    vm_compute; reflexivity.
Defined.

(** A run whose three stages succeed displays the verdict of its label and
    no other. *)
Lemma labelled_run_displays_verdict
    (model : Scorer) (encoders : gmap string Encoder) (a : Applicant)
    (p : Process) (df : DataFrame) (label : Z) (rest : list Z) :
  outcome (build_input_df encoders a p) = Ok df ->
  predict model df = Ok (label :: rest) ->
  proba_well_formed model df ->
  verdicts (events (on_submit model encoders a p)) = [verdict_of_label label].
Proof.
  intros H1 H2 H3.
  destruct (read_proba_good_well_formed model df p H3) as [pg Hpg].
  rewrite on_submit_run. cbv zeta.
  rewrite H1, H2, Hpg, (build_input_df_ok_events _ _ _ _ H1), read_proba_good_events.
  cbn [events].
  rewrite verdicts_app, verdicts_transform_calls, verdicts_cons. cbn [verdict_of_event].
  rewrite verdicts_app, verdicts_proba_call, verdicts_handler_displays. reflexivity.
Qed.

(** C2. For every submitted form whose table the scorer labels, the handler
    displays exactly one verdict, and that verdict is GOOD if and only if
    the predicted label equals the GOOD class id 1; for every other label it
    is BAD. *)
Theorem verdict_good_iff_label_is_one
    (model : Scorer) (encoders : gmap string Encoder) (a : Applicant)
    (p : Process) (df : DataFrame) (label : Z) (rest : list Z) :
  outcome (build_input_df encoders a p) = Ok df ->
  predict model df = Ok (label :: rest) ->
  proba_well_formed model df ->
  verdicts (events (on_submit model encoders a p)) = [verdict_of_label label]
  /\ (verdict_of_label label = GOOD <-> label = 1)
  /\ (verdict_of_label label = BAD <-> label <> 1).
Proof.
  intros H1 H2 H3.
  split; [eapply labelled_run_displays_verdict; eassumption |].
  split; [apply verdict_good_iff | apply verdict_bad_iff].
Qed.

Lemma proba_well_formed_sample : proba_well_formed Samples.scorer_with_proba table_1000.
Proof.
  exists [Samples.f_quarter; Samples.f_three_quarters], [].
  split; [reflexivity |]. intros i [= <-]. cbn. lia.
Defined.

Lemma verdict_good_iff_label_is_one_witness :
  verdicts (events (on_submit Samples.scorer_with_proba Samples.encoders
                      Samples.applicant_1000 fresh_process)) = [verdict_of_label 1]
  /\ (verdict_of_label 1 = GOOD <-> 1 = 1)
  /\ (verdict_of_label 1 = BAD <-> 1 <> 1).
Proof.
  apply (verdict_good_iff_label_is_one
           Samples.scorer_with_proba Samples.encoders Samples.applicant_1000
           fresh_process table_1000 1 []).
  - vm_compute; reflexivity.
  - vm_compute; reflexivity.
  - exact proba_well_formed_sample.
Defined.

(** C3. Whenever one of the four submitted labels is outside the fitted
    vocabulary of its encoder, the assembly ends in UnknownCategory for such
    a label and yields no table; the handler ends in the same exception,
    having made encoder calls only: the scorer is never called and nothing,
    in particular no verdict, is displayed. *)
Theorem unknown_category_aborts
    (model : Scorer) (encoders : gmap string Encoder) (a : Applicant) (p : Process) :
  bank_complete encoders = true ->
  knows encoders "Sex" (sex a)
    && knows encoders "Housing" (housing a)
    && knows encoders "Saving accounts" (saving_accounts a)
    && knows encoders "Checking account" (checking_account a) = false ->
  exists col label,
    In (col, label) (categorical_fields a) /\
    knows encoders col label = false /\
    outcome (build_input_df encoders a p) = Err (UnknownCategory label) /\
    outcome (on_submit model encoders a p) = Err (UnknownCategory label) /\
    forallb is_transform (events (on_submit model encoders a p)) = true /\
    List.filter is_scorer_call (events (on_submit model encoders a p)) = [] /\
    List.filter is_display (events (on_submit model encoders a p)) = [] /\
    verdicts (events (on_submit model encoders a p)) = [].
Proof.
  intros Hbank Hunknown.
  destruct (build_input_df_unknown encoders a p Hbank Hunknown)
    as (n & col & label & Hrun & Hin & Hk).
  exists col, label. split; [exact Hin |]. split; [exact Hk |].
  rewrite on_submit_run. cbv zeta. rewrite Hrun. cbn [outcome events].
  split; [reflexivity |]. split; [reflexivity |].
  rewrite verdicts_take_transform_calls.
  do 5 (destruct n as [| n]; [repeat split; reflexivity |]).
  repeat split; reflexivity.
Qed.

Lemma unknown_category_aborts_witness :
  exists col label,
    In (col, label) (categorical_fields Samples.applicant_unknown_housing) /\
    knows Samples.encoders col label = false /\
    outcome (build_input_df Samples.encoders Samples.applicant_unknown_housing
               fresh_process) = Err (UnknownCategory label) /\
    outcome (on_submit Samples.scorer_with_proba Samples.encoders
               Samples.applicant_unknown_housing fresh_process)
      = Err (UnknownCategory label) /\
    forallb is_transform
      (events (on_submit Samples.scorer_with_proba Samples.encoders
                 Samples.applicant_unknown_housing fresh_process)) = true /\
    List.filter is_scorer_call
      (events (on_submit Samples.scorer_with_proba Samples.encoders
                 Samples.applicant_unknown_housing fresh_process)) = [] /\
    List.filter is_display
      (events (on_submit Samples.scorer_with_proba Samples.encoders
                 Samples.applicant_unknown_housing fresh_process)) = [] /\
    verdicts
      (events (on_submit Samples.scorer_with_proba Samples.encoders
                 Samples.applicant_unknown_housing fresh_process)) = [].
Proof.
  apply (unknown_category_aborts Samples.scorer_with_proba Samples.encoders
           Samples.applicant_unknown_housing fresh_process);
    vm_compute; reflexivity.
Defined.



(** The float difference [1 - P(GOOD)] is rounded: for P(GOOD) = 2 ** -60
    it is [1.0]. *)
Example proba_bad_rounds : sub f1 Samples.f_tiny = f1.
Proof. vm_compute. reflexivity. Qed.

(** C5. When the scorer has [predict_proba] and returns a vector, but class
    1 is not among its classes, the handler completes without an exception:
    P(GOOD) and P(BAD) stay [None], neither the probability metric nor the
    progress bar is displayed, and the verdict is displayed all the same. *)
Theorem absent_good_class_reports_no_probability
    (model : Scorer) (encoders : gmap string Encoder) (a : Applicant)
    (p : Process) (df : DataFrame) (label : Z) (rest : list Z)
    (f : DataFrame -> result (list (list float)))
    (proba : list float) (rows : list (list float)) :
  outcome (build_input_df encoders a p) = Ok df ->
  predict model df = Ok (label :: rest) ->
  predict_proba model = Some f ->
  f df = Ok (proba :: rows) ->
  py_in 1 (classes_ model) = false ->
  outcome (on_submit model encoders a p) =
    Ok {| input_df := df; pred := label; proba_good := None; proba_bad := None |}
  /\ List.filter is_proba_display (events (on_submit model encoders a p)) = []
  /\ verdicts (events (on_submit model encoders a p)) = [verdict_of_label label].
Proof.
  intros H1 H2 Hf Hrows Hin.
  assert (Hread : outcome (read_proba_good model df p) = Ok None).
  { rewrite read_proba_good_run, Hf. cbn [outcome]. rewrite Hrows, Hin. reflexivity. }
  rewrite (on_submit_completes _ _ _ _ _ _ _ _ H1 H2 Hread eq_refl).
  cbn [outcome events].
  split; [reflexivity |]. split.
  - unfold proba_call, display_events, verdict_event. rewrite Hf.
    destruct (Z.eqb label 1); reflexivity.
  - rewrite verdicts_app, verdicts_transform_calls, verdicts_cons.
    cbn [verdict_of_event].
    rewrite verdicts_app, verdicts_proba_call, verdicts_display. reflexivity.
Qed.

Lemma absent_good_class_reports_no_probability_witness :
  outcome (on_submit Samples.scorer_other_classes Samples.encoders
             Samples.applicant_1000 fresh_process) =
    Ok {| input_df := table_1000; pred := 2; proba_good := None; proba_bad := None |}
  /\ List.filter is_proba_display
       (events (on_submit Samples.scorer_other_classes Samples.encoders
                  Samples.applicant_1000 fresh_process)) = []
  /\ verdicts (events (on_submit Samples.scorer_other_classes Samples.encoders
                         Samples.applicant_1000 fresh_process))
     = [verdict_of_label 2].
Proof.
  apply (absent_good_class_reports_no_probability
           Samples.scorer_other_classes Samples.encoders Samples.applicant_1000
           fresh_process table_1000 2 []
           (fun _ => Ok [[Samples.f_quarter; Samples.f_three_quarters]])
           [Samples.f_quarter; Samples.f_three_quarters] []);
    vm_compute; reflexivity.
Defined.

Section VerdictFacts.

Variable encoders : gmap string Encoder.
Variable a : Applicant.

(** The table depends on the record and on the encoders, not on the state
    of the process. *)
Lemma build_input_df_outcome_indep (p1 p2 : Process) (df : DataFrame) :
  outcome (build_input_df encoders a p1) = Ok df ->
  outcome (build_input_df encoders a p2) = Ok df.
Proof.
  intros H.
  destruct (build_input_df_inv _ _ _ _ H) as (c1 & c2 & c3 & c4 & H1 & H2 & H3 & H4).
  rewrite (build_input_df_known _ _ p1 _ _ _ _ H1 H2 H3 H4) in H.
  rewrite (build_input_df_known _ _ p2 _ _ _ _ H1 H2 H3 H4). exact H.
Qed.

(** Whatever the probability stage does, a run whose table got the label
    [label] displays that label's verdict or none. *)
Lemma verdicts_of_labelled_run (model : Scorer) (p : Process) (df : DataFrame)
    (label : Z) (rest : list Z) :
  outcome (build_input_df encoders a p) = Ok df ->
  predict model df = Ok (label :: rest) ->
  verdicts (events (on_submit model encoders a p)) = []
  \/ verdicts (events (on_submit model encoders a p)) = [verdict_of_label label].
Proof.
  intros H1 H2. rewrite on_submit_run. cbv zeta.
  rewrite H1, H2, (build_input_df_ok_events _ _ _ _ H1), read_proba_good_events.
  destruct (outcome (read_proba_good model df p)) as [pg | e]; cbn [events];
    rewrite verdicts_app, verdicts_transform_calls, verdicts_cons;
    cbn [verdict_of_event].
  - right. rewrite verdicts_app, verdicts_proba_call, verdicts_handler_displays.
    reflexivity.
  - left. rewrite verdicts_proba_call. reflexivity.
Qed.

(** Each categorical cell of the table is the code of its own encoder. *)
Lemma build_input_df_cells (p : Process) (df : DataFrame) :
  outcome (build_input_df encoders a p) = Ok df ->
  Forall (fun cl => column (fst cl) df
                    = option_map (fun c => [c]) (code_of encoders (fst cl) (snd cl)))
         (categorical_fields a).
Proof.
  intros H.
  destruct (build_input_df_inv _ _ _ _ H) as (c1 & c2 & c3 & c4 & H1 & H2 & H3 & H4).
  rewrite (build_input_df_known _ _ p _ _ _ _ H1 H2 H3 H4) in H.
  cbn [outcome] in H. injection H as <-.
  unfold categorical_fields. repeat constructor; cbn [fst snd].
  - rewrite H1. reflexivity.
  - rewrite H2. reflexivity.
  - rewrite H3. reflexivity.
  - rewrite H4. reflexivity.
Qed.

Lemma filter_transform_display (df : DataFrame) (label : Z) (pg : option float) :
  List.filter is_transform (display_events a df label pg) = [].
Proof.
  unfold display_events, verdict_event.
  destruct (Z.eqb label 1), pg; reflexivity.
Qed.

Lemma filter_transform_handler_displays (df : DataFrame) (label : Z)
    (pg : option float) :
  List.filter is_transform (handler_displays a df label pg) = [].
Proof.
  unfold handler_displays, verdict_event.
  destruct (Z.eqb label 1), pg as [x |]; cbn [progress_accepts proba_display];
    try destruct (in_unit (progress_value x)); reflexivity.
Qed.

Lemma filter_transform_proba_call (model : Scorer) (df : DataFrame) :
  List.filter is_transform (proba_call model df) = [].
Proof. unfold proba_call. destruct (predict_proba model); reflexivity. Qed.

End VerdictFacts.

(** C6 as stated fails: the script loads four encoders, and a completed run
    makes four encoder calls, not six. *)
Lemma six_encoders_counterexample :
  length encoder_cols <> 6%nat /\
  length (categorical_fields Samples.applicant_1000) <> 6%nat /\
  length (List.filter is_transform
            (events (on_submit Samples.scorer_with_proba Samples.encoders
                       Samples.applicant_1000 fresh_process))) <> 6%nat.
Proof. repeat split; vm_compute; discriminate. Qed.

(** C6, as the code has it. Four fields of a record are categorical: Sex,
    Housing, Saving accounts and Checking account, the columns the four
    encoders are loaded for. Whenever the table is built, each of the four
    labels was looked up in the encoder of its own column, which gave the
    cell of that column, and these four encoder calls are all the encoder
    calls of the run and come before the call of the scorer. *)
Theorem four_encoders_before_inference
    (model : Scorer) (encoders : gmap string Encoder) (a : Applicant)
    (p : Process) (df : DataFrame) :
  outcome (build_input_df encoders a p) = Ok df ->
  length encoder_cols = 4%nat /\
  map fst (categorical_fields a) = encoder_cols /\
  transform_calls a
    = map (fun cl => EvTransform (fst cl) [snd cl]) (categorical_fields a) /\
  Forall (fun cl => column (fst cl) df
                    = option_map (fun c => [c]) (code_of encoders (fst cl) (snd cl)))
         (categorical_fields a) /\
  exists tail,
    events (on_submit model encoders a p) = transform_calls a ++ EvPredict df :: tail /\
    List.filter is_transform tail = [].
Proof.
  intros H. split; [reflexivity |]. split; [reflexivity |]. split; [reflexivity |].
  split.
  - eapply build_input_df_cells; exact H.
  - rewrite on_submit_run. cbv zeta.
    rewrite H, (build_input_df_ok_events _ _ _ _ H), read_proba_good_events.
    destruct (predict model df) as [[| label rest] | e]; cbn [events];
      try (exists []; split; reflexivity).
    destruct (outcome (read_proba_good model df p)) as [pg | e]; cbn [events];
      eexists; (split; [reflexivity |]).
    + rewrite List.filter_app, filter_transform_proba_call,
        filter_transform_handler_displays.
      reflexivity.
    + apply filter_transform_proba_call.
Qed.

Lemma four_encoders_before_inference_witness :
  length encoder_cols = 4%nat /\
  map fst (categorical_fields Samples.applicant_1000) = encoder_cols /\
  transform_calls Samples.applicant_1000
    = map (fun cl => EvTransform (fst cl) [snd cl])
          (categorical_fields Samples.applicant_1000) /\
  Forall (fun cl => column (fst cl) table_1000
                    = option_map (fun c => [c])
                        (code_of Samples.encoders (fst cl) (snd cl)))
         (categorical_fields Samples.applicant_1000) /\
  exists tail,
    events (on_submit Samples.scorer_with_proba Samples.encoders
              Samples.applicant_1000 fresh_process)
      = transform_calls Samples.applicant_1000 ++ EvPredict table_1000 :: tail /\
    List.filter is_transform tail = [].
Proof.
  apply (four_encoders_before_inference
           Samples.scorer_with_proba Samples.encoders Samples.applicant_1000
           fresh_process table_1000).
  vm_compute; reflexivity.
Defined.

(** C8. Whenever the scorer gives a P(GOOD) that is a number, whatever its
    size, the progress bar is driven with the clamp
    [min(max(P(GOOD), 0.0), 1.0)] and with nothing else, that value lies in
    [0, 1], and the run completes. *)
Theorem progress_value_within_unit
    (model : Scorer) (encoders : gmap string Encoder) (a : Applicant)
    (p : Process) (df : DataFrame) (label : Z) (rest : list Z) (pg : float) :
  outcome (build_input_df encoders a p) = Ok df ->
  predict model df = Ok (label :: rest) ->
  outcome (read_proba_good model df p) = Ok (Some pg) ->
  is_nan pg = false ->
  In (EvProgress (progress_value pg)) (events (on_submit model encoders a p))
  /\ in_unit (progress_value pg) = true
  /\ (forall v, In (EvProgress v) (events (on_submit model encoders a p)) ->
                v = progress_value pg /\ in_unit v = true)
  /\ exists l, outcome (on_submit model encoders a p) = Ok l /\
               proba_good l = Some pg.
Proof.
  intros H1 H2 H3 Hnan.
  pose proof (progress_value_in_unit pg Hnan) as Hunit.
  split; [| split; [exact Hunit | split]].
  - rewrite (on_submit_completes _ _ _ _ _ _ _ _ H1 H2 H3 Hunit). cbn [events].
    apply in_or_app. right. right. apply in_or_app. right.
    unfold display_events. right. right. right. cbn. auto.
  - intros v Hin.
    destruct (progress_event_origin _ _ _ _ _ Hin)
      as (df' & label' & rest' & pg' & B & _ & R & ->).
    rewrite H1 in B. injection B as <-. rewrite H3 in R. injection R as <-.
    split; [reflexivity | exact Hunit].
  - rewrite (on_submit_completes _ _ _ _ _ _ _ _ H1 H2 H3 Hunit). cbn [outcome].
    eexists. split; reflexivity.
Qed.

Lemma progress_value_within_unit_witness :
  In (EvProgress (progress_value Samples.f_one_and_half))
     (events (on_submit Samples.scorer_out_of_range Samples.encoders
                Samples.applicant_1000 fresh_process))
  /\ in_unit (progress_value Samples.f_one_and_half) = true
  /\ (forall v,
         In (EvProgress v)
            (events (on_submit Samples.scorer_out_of_range Samples.encoders
                       Samples.applicant_1000 fresh_process)) ->
         v = progress_value Samples.f_one_and_half /\ in_unit v = true)
  /\ exists l,
       outcome (on_submit Samples.scorer_out_of_range Samples.encoders
                  Samples.applicant_1000 fresh_process) = Ok l /\
       proba_good l = Some Samples.f_one_and_half.
Proof.
  apply (progress_value_within_unit
           Samples.scorer_out_of_range Samples.encoders Samples.applicant_1000
           fresh_process table_1000 1 [] Samples.f_one_and_half);
    vm_compute; reflexivity.
Defined.

(** C10. For two runs on the same encoded table whose [predict] calls return
    the same label, any verdict one run displays is the verdict the other
    displays, whether or not either scorer has [predict_proba] and whatever
    it returns; and each run whose probability vector is well formed does
    display that verdict, the one of the label. *)
Theorem verdict_depends_only_on_label
    (m1 m2 : Scorer) (encoders : gmap string Encoder) (a : Applicant)
    (p1 p2 : Process) (df : DataFrame) (label : Z) (rest1 rest2 : list Z) :
  outcome (build_input_df encoders a p1) = Ok df ->
  predict m1 df = Ok (label :: rest1) ->
  predict m2 df = Ok (label :: rest2) ->
  (forall v1 v2,
      In v1 (verdicts (events (on_submit m1 encoders a p1))) ->
      In v2 (verdicts (events (on_submit m2 encoders a p2))) ->
      v1 = v2)
  /\ (proba_well_formed m1 df ->
      verdicts (events (on_submit m1 encoders a p1)) = [verdict_of_label label])
  /\ (proba_well_formed m2 df ->
      verdicts (events (on_submit m2 encoders a p2)) = [verdict_of_label label]).
Proof.
  intros H1 Hm1 Hm2.
  pose proof (build_input_df_outcome_indep _ _ p1 p2 _ H1) as H2.
  split; [| split].
  - intros v1 v2 Hv1 Hv2.
    destruct (verdicts_of_labelled_run _ _ m1 p1 df label rest1 H1 Hm1) as [E1 | E1];
      rewrite E1 in Hv1; [destruct Hv1 |].
    destruct (verdicts_of_labelled_run _ _ m2 p2 df label rest2 H2 Hm2) as [E2 | E2];
      rewrite E2 in Hv2; [destruct Hv2 |].
    destruct Hv1 as [<- | []]. destruct Hv2 as [<- | []]. reflexivity.
  - intros Hwf.
    apply (labelled_run_displays_verdict m1 encoders a p1 df label rest1 H1 Hm1 Hwf).
  - intros Hwf.
    apply (labelled_run_displays_verdict m2 encoders a p2 df label rest2 H2 Hm2 Hwf).
Qed.

Lemma verdict_depends_only_on_label_witness :
  (forall v1 v2,
      In v1 (verdicts (events (on_submit Samples.scorer_with_proba Samples.encoders
                                 Samples.applicant_1000 fresh_process))) ->
      In v2 (verdicts (events (on_submit Samples.scorer_label_only Samples.encoders
                                 Samples.applicant_1000 fresh_process))) ->
      v1 = v2)
  /\ (proba_well_formed Samples.scorer_with_proba table_1000 ->
      verdicts (events (on_submit Samples.scorer_with_proba Samples.encoders
                          Samples.applicant_1000 fresh_process))
      = [verdict_of_label 1])
  /\ (proba_well_formed Samples.scorer_label_only table_1000 ->
      verdicts (events (on_submit Samples.scorer_label_only Samples.encoders
                          Samples.applicant_1000 fresh_process))
      = [verdict_of_label 1]).
Proof.
  apply (verdict_depends_only_on_label
           Samples.scorer_with_proba Samples.scorer_label_only Samples.encoders
           Samples.applicant_1000 fresh_process fresh_process table_1000 1 [] []);
    vm_compute; reflexivity.
Defined.

(** ** The process: loading, caching, reruns *)

Section ProcessFacts.

Variable fs : AssetFiles.

Lemma joblib_load_found {A} (files : gmap string A) (path : string)
    (p : Process) (o : A) :
  files !! path = Some o ->
  joblib_load files path p =
    {| events := [EvLoad path];
       final := {| next_oid := S (next_oid p); cache := cache p |};
       outcome := Ok {| oid := next_oid p; obj := o |} |}.
Proof. intros H. unfold joblib_load. rewrite H. reflexivity. Qed.

Lemma joblib_load_missing {A} (files : gmap string A) (path : string) (p : Process) :
  files !! path = None ->
  joblib_load files path p =
    {| events := [EvLoad path]; final := p; outcome := Err (AssetLoadFailure path) |}.
Proof. intros H. unfold joblib_load. rewrite H. reflexivity. Qed.

Lemma joblib_load_cache {A} (files : gmap string A) (path : string) (p : Process) :
  cache (final (joblib_load files path p)) = cache p.
Proof. unfold joblib_load. destruct (files !! path); reflexivity. Qed.

Lemma bind_cache {A B} (m : M A) (k : A -> M B) (p : Process) :
  (forall q, cache (final (m q)) = cache q) ->
  (forall x q, cache (final (k x q)) = cache q) ->
  cache (final (bind m k p)) = cache p.
Proof.
  intros Hm Hk. unfold bind. destruct (outcome (m p)); cbn [final].
  - rewrite Hk. apply Hm.
  - apply Hm.
Qed.

Lemma load_encoders_cache (cols : list string) (acc : gmap string (loaded Encoder))
    (p : Process) :
  cache (final (load_encoders fs cols acc p)) = cache p.
Proof.
  revert acc p. induction cols as [| col rest IH]; intros acc p; [reflexivity |].
  cbn [load_encoders]. apply bind_cache.
  - intros q. apply joblib_load_cache.
  - intros x q. apply IH.
Qed.

(** Loading never touches the cache slot. *)
Lemma load_assets_cache (p : Process) :
  cache (final (load_assets fs p)) = cache p.
Proof.
  unfold load_assets. apply bind_cache.
  - intros q. apply joblib_load_cache.
  - intros x q. apply bind_cache; [intros q'; apply load_encoders_cache | reflexivity].
Qed.

(** With the five files there, one pass loads each of them once, in the
    order of the script, into five new objects. *)
Lemma load_assets_present (p : Process) :
  files_present fs = true ->
  exists s e1 e2 e3 e4,
    scorer_files fs !! model_path = Some s /\
    encoder_files fs !! encoder_path "Sex" = Some e1 /\
    encoder_files fs !! encoder_path "Housing" = Some e2 /\
    encoder_files fs !! encoder_path "Saving accounts" = Some e3 /\
    encoder_files fs !! encoder_path "Checking account" = Some e4 /\
    load_assets fs p =
      {| events := load_calls;
         final := {| next_oid := 5 + next_oid p; cache := cache p |};
         outcome :=
           Ok {| a_model := {| oid := next_oid p; obj := s |};
                 a_encoders :=
                   <["Checking account" := {| oid := 4 + next_oid p; obj := e4 |}]>
                     (<["Saving accounts" := {| oid := 3 + next_oid p; obj := e3 |}]>
                        (<["Housing" := {| oid := 2 + next_oid p; obj := e2 |}]>
                           (<["Sex" := {| oid := 1 + next_oid p; obj := e1 |}]> ∅)))
              |} |}.
Proof.
  unfold files_present, encoder_cols. cbn [forallb]. intros H.
  destruct (scorer_files fs !! model_path) as [s |] eqn:E0; [| discriminate].
  destruct (encoder_files fs !! encoder_path "Sex") as [e1 |] eqn:E1;
    [| discriminate].
  destruct (encoder_files fs !! encoder_path "Housing") as [e2 |] eqn:E2;
    [| discriminate].
  destruct (encoder_files fs !! encoder_path "Saving accounts") as [e3 |] eqn:E3;
    [| discriminate].
  destruct (encoder_files fs !! encoder_path "Checking account") as [e4 |] eqn:E4;
    [| discriminate].
  exists s, e1, e2, e3, e4. repeat (split; [reflexivity |]).
  unfold load_assets, encoder_cols.
  rewrite (bind_run _ _ _ _ _ _ (joblib_load_found _ _ p _ E0)).
  cbn [load_encoders].
  rewrite (bind_run _ _ _ _ _ _
             (bind_run _ _ _ _ _ _ (joblib_load_found _ _ _ _ E1))).
  rewrite (bind_run _ _ _ _ _ _ (joblib_load_found _ _ _ _ E2)).
  rewrite (bind_run _ _ _ _ _ _ (joblib_load_found _ _ _ _ E3)).
  rewrite (bind_run _ _ _ _ _ _ (joblib_load_found _ _ _ _ E4)).
  reflexivity.
Qed.

End ProcessFacts.

Section ScriptFacts.

Variable fs : AssetFiles.

Lemma assets_from_loaded (n : nat) (s : Scorer) (e1 e2 e3 e4 : Encoder)
    (n1 n2 n3 n4 : nat) :
  scorer_files fs !! model_path = Some s ->
  encoder_files fs !! encoder_path "Sex" = Some e1 ->
  encoder_files fs !! encoder_path "Housing" = Some e2 ->
  encoder_files fs !! encoder_path "Saving accounts" = Some e3 ->
  encoder_files fs !! encoder_path "Checking account" = Some e4 ->
  assets_from fs
    {| a_model := {| oid := n; obj := s |};
       a_encoders :=
         <["Checking account" := {| oid := n4; obj := e4 |}]>
           (<["Saving accounts" := {| oid := n3; obj := e3 |}]>
              (<["Housing" := {| oid := n2; obj := e2 |}]>
                 (<["Sex" := {| oid := n1; obj := e1 |}]> ∅))) |}.
Proof.
  intros E0 E1 E2 E3 E4. split; [exact E0 |].
  unfold encoder_cols. cbn [a_encoders]. repeat constructor.
  - exists {| oid := n1; obj := e1 |}. split; [| exact E1].
    rewrite !lookup_insert_ne by discriminate. apply lookup_insert_eq.
  - exists {| oid := n2; obj := e2 |}. split; [| exact E2].
    rewrite !lookup_insert_ne by discriminate. apply lookup_insert_eq.
  - exists {| oid := n3; obj := e3 |}. split; [| exact E3].
    rewrite !lookup_insert_ne by discriminate. apply lookup_insert_eq.
  - exists {| oid := n4; obj := e4 |}. split; [| exact E4].
    apply lookup_insert_eq.
Qed.

(** A pass that fails on a missing file returns no assets. *)
Lemma load_assets_absent (p : Process) :
  files_present fs = false -> exists e, outcome (load_assets fs p) = Err e.
Proof.
  unfold files_present, encoder_cols. cbn [forallb]. intros H.
  unfold load_assets, encoder_cols.
  destruct (scorer_files fs !! model_path) as [s |] eqn:E0.
  2:{ rewrite (bind_run _ _ _ _ _ _ (joblib_load_missing _ _ p E0)). eauto. }
  rewrite (bind_run _ _ _ _ _ _ (joblib_load_found _ _ p _ E0)).
  cbn [load_encoders outcome].
  destruct (encoder_files fs !! encoder_path "Sex") as [e1 |] eqn:E1.
  2:{ rewrite (bind_run _ _ _ _ _ _
                 (bind_run _ _ _ _ _ _ (joblib_load_missing _ _ _ E1))). eauto. }
  rewrite (bind_run _ _ _ _ _ _
             (bind_run _ _ _ _ _ _ (joblib_load_found _ _ _ _ E1))).
  destruct (encoder_files fs !! encoder_path "Housing") as [e2 |] eqn:E2.
  2:{ rewrite (bind_run _ _ _ _ _ _ (joblib_load_missing _ _ _ E2)). eauto. }
  rewrite (bind_run _ _ _ _ _ _ (joblib_load_found _ _ _ _ E2)).
  destruct (encoder_files fs !! encoder_path "Saving accounts") as [e3 |] eqn:E3.
  2:{ rewrite (bind_run _ _ _ _ _ _ (joblib_load_missing _ _ _ E3)). eauto. }
  rewrite (bind_run _ _ _ _ _ _ (joblib_load_found _ _ _ _ E3)).
  destruct (encoder_files fs !! encoder_path "Checking account") as [e4 |] eqn:E4.
  2:{ rewrite (bind_run _ _ _ _ _ _ (joblib_load_missing _ _ _ E4)). eauto. }
  discriminate.
Qed.

Lemma load_assets_inv (p : Process) (v : Assets) :
  outcome (load_assets fs p) = Ok v -> assets_from fs v.
Proof.
  intros H. destruct (files_present fs) eqn:Hp.
  - destruct (load_assets_present fs p Hp)
      as (s & e1 & e2 & e3 & e4 & E0 & E1 & E2 & E3 & E4 & Hrun).
    rewrite Hrun in H. cbn [outcome] in H. injection H as <-.
    apply assets_from_loaded; assumption.
  - destruct (load_assets_absent p Hp) as [e He]. congruence.
Qed.

Lemma load_assets_cached_hit (p : Process) (v : Assets) :
  cache p = Some v ->
  load_assets_cached fs p = {| events := []; final := p; outcome := Ok v |}.
Proof. intros H. unfold load_assets_cached, cache_resource. rewrite H. reflexivity. Qed.

Lemma load_assets_cached_inv (p : Process) :
  cache_inv fs p -> cache_inv fs (final (load_assets_cached fs p)).
Proof.
  unfold cache_inv, load_assets_cached, cache_resource.
  destruct (cache p) as [v |] eqn:Hc.
  { intros Hv. cbn [final]. rewrite Hc. exact Hv. }
  intros _.
  destruct (outcome (load_assets fs p)) as [v | e] eqn:E; cbn [final cache].
  - eapply load_assets_inv; exact E.
  - rewrite load_assets_cache, Hc. exact I.
Qed.

Lemma load_assets_cached_ok (p : Process) (v : Assets) :
  cache_inv fs p -> outcome (load_assets_cached fs p) = Ok v -> assets_from fs v.
Proof.
  unfold cache_inv, load_assets_cached, cache_resource.
  destruct (cache p) as [v0 |] eqn:Hc.
  - cbn [outcome]. intros Hv [= <-]. exact Hv.
  - intros _. destruct (outcome (load_assets fs p)) as [v1 | e] eqn:E.
    + cbn [outcome]. intros [= <-]. eapply load_assets_inv; exact E.
    + rewrite E. discriminate.
Qed.

Lemma on_submit_final (model : Scorer) (encoders : gmap string Encoder)
    (a : Applicant) (p : Process) :
  final (on_submit model encoders a p) = p.
Proof.
  rewrite on_submit_run. cbv zeta.
  destruct (outcome (build_input_df encoders a p)); [| reflexivity].
  destruct (predict model a0) as [[| label rest] | e]; try reflexivity.
  destruct (outcome (read_proba_good model a0 p)); reflexivity.
Qed.

(** The script, stage by stage. *)
Lemma script_run (form : Form) (p : Process) :
  script fs form p =
    let r0 := load_assets_cached fs p in
    match outcome r0 with
    | Err e => {| events := events r0; final := final r0; outcome := Err e |}
    | Ok v =>
        if submitted form then
          let r1 := on_submit (obj (a_model v)) (obj <$> a_encoders v)
                      (applicant form) (final r0) in
          {| events := events r0 ++ events r1;
             final := final r0;
             outcome := match outcome r1 with
                        | Ok l => Ok {| g_assets := v; g_locals := Some l |}
                        | Err e => Err e
                        end |}
        else
          {| events := events r0 ++ [];
             final := final r0;
             outcome := Ok {| g_assets := v; g_locals := None |} |}
    end.
Proof.
  cbv zeta. unfold script.
  rewrite (bind_run _ _ _ _ _ _ (run_eta (load_assets_cached fs p))).
  destruct (outcome (load_assets_cached fs p)) as [v | e]; [| reflexivity].
  destruct (submitted form); [| reflexivity].
  pose proof (run_eta (on_submit (obj (a_model v)) (obj <$> a_encoders v)
                         (applicant form) (final (load_assets_cached fs p)))) as R1.
  rewrite on_submit_final in R1. rewrite (bind_run _ _ _ _ _ _ R1).
  destruct (outcome (on_submit _ _ _ _)); cbn [events final outcome ret];
    [rewrite app_nil_r |]; reflexivity.
Qed.

Lemma script_final (form : Form) (p : Process) :
  final (script fs form p) = final (load_assets_cached fs p).
Proof.
  rewrite script_run. cbv zeta.
  destruct (outcome (load_assets_cached fs p)); [| reflexivity].
  destruct (submitted form); reflexivity.
Qed.

(** Whatever the forms and however their runs end, the cache holds
    nothing or the contents of the asset files. *)
Lemma state_after_inv (forms : list Form) (p : Process) :
  cache_inv fs p -> cache_inv fs (state_after fs forms p).
Proof.
  revert p. induction forms as [| f rest IH]; intros p Hp; [exact Hp |].
  cbn [state_after fold_left]. apply IH.
  rewrite script_final. apply load_assets_cached_inv. exact Hp.
Qed.

Lemma fresh_process_inv : cache_inv fs fresh_process.
Proof. exact I. Qed.

(** The encoder bank the handler gets has, column by column, the codes of
    the asset files. *)
Lemma code_of_assets (v : Assets) (col label : string) :
  assets_from fs v -> In col encoder_cols ->
  code_of (obj <$> a_encoders v) col label = file_code fs col label.
Proof.
  intros [_ Henc] Hin. rewrite Forall_forall in Henc.
  destruct (Henc col) as (e & He & Hfile); [apply list_elem_of_In; exact Hin |].
  unfold code_of, file_code. rewrite lookup_fmap, He, Hfile. reflexivity.
Qed.

(** The bank the cached assets give the handler has its four encoders. *)
Lemma assets_bank_complete (v : Assets) :
  assets_from fs v -> bank_complete (obj <$> a_encoders v) = true.
Proof.
  intros [_ Henc]. unfold bank_complete. rewrite forallb_forall. intros col Hin.
  rewrite Forall_forall in Henc.
  destruct (Henc col) as (e & He & _); [apply list_elem_of_In; exact Hin |].
  rewrite lookup_fmap, He. reflexivity.
Qed.

End ScriptFacts.

Section RerunFacts.

Variable fs : AssetFiles.

Lemma load_events_app (tr1 tr2 : list event) :
  load_events (tr1 ++ tr2) = load_events tr1 ++ load_events tr2.
Proof. apply List.filter_app. Qed.

Lemma load_events_transform (tr : list event) :
  forallb is_transform tr = true -> load_events tr = [].
Proof.
  induction tr as [| e rest IH]; [reflexivity |]. cbn [forallb].
  intros H. apply andb_prop in H. destruct H as [He Hrest].
  destruct e; try discriminate. cbn. apply IH. exact Hrest.
Qed.

Lemma load_events_proba_call (model : Scorer) (df : DataFrame) :
  load_events (proba_call model df) = [].
Proof. unfold proba_call. destruct (predict_proba model); reflexivity. Qed.

Lemma load_events_handler_displays (a : Applicant) (df : DataFrame) (label : Z)
    (pg : option float) :
  load_events (handler_displays a df label pg) = [].
Proof.
  unfold handler_displays, verdict_event.
  destruct (Z.eqb label 1), pg as [x |]; cbn [progress_accepts proba_display];
    try destruct (in_unit (progress_value x)); reflexivity.
Qed.

Lemma load_events_display (a : Applicant) (df : DataFrame) (label : Z)
    (pg : option float) :
  load_events (display_events a df label pg) = [].
Proof.
  unfold display_events, verdict_event. destruct (Z.eqb label 1), pg; reflexivity.
Qed.

(** The handler loads nothing. *)
Lemma on_submit_no_load (model : Scorer) (encoders : gmap string Encoder)
    (a : Applicant) (p : Process) :
  load_events (events (on_submit model encoders a p)) = [].
Proof.
  rewrite on_submit_run. cbv zeta.
  pose proof (load_events_transform _ (build_input_df_events_transform encoders a p))
    as Hb.
  destruct (outcome (build_input_df encoders a p)) as [df | e]; [| exact Hb].
  destruct (predict model df) as [[| label rest] | e]; cbn [events];
    try (rewrite load_events_app, Hb; reflexivity).
  rewrite read_proba_good_events.
  destruct (outcome (read_proba_good model df p)); cbn [events];
    rewrite load_events_app, Hb; cbn [app];
    change (load_events (EvPredict df :: ?tr)) with (load_events tr).
  - rewrite load_events_app, load_events_proba_call, load_events_handler_displays.
    reflexivity.
  - apply load_events_proba_call.
Qed.

(** A run that finds the assets in the cache loads nothing, leaves the
    process as it was and works on the cached assets. *)
Lemma script_cache_hit (form : Form) (p : Process) (v : Assets) :
  cache p = Some v ->
  load_events (events (script fs form p)) = [] /\
  final (script fs form p) = p /\
  (forall g, outcome (script fs form p) = Ok g -> g_assets g = v).
Proof.
  intros Hc. rewrite script_run. cbv zeta.
  rewrite (load_assets_cached_hit fs p v Hc). cbn [outcome events final].
  destruct (submitted form); cbn [events final outcome app].
  - split; [apply on_submit_no_load |]. split; [reflexivity |].
    intros g. destruct (outcome (on_submit _ _ _ _)); [| discriminate].
    intros [= <-]. reflexivity.
  - split; [reflexivity |]. split; [reflexivity |]. intros g [= <-]. reflexivity.
Qed.

(** The first run of a process whose asset files are there loads each file
    once and fills the cache with the five new objects. *)
Lemma script_cache_miss (form : Form) (p : Process) :
  cache p = None -> files_present fs = true ->
  exists v,
    load_events (events (script fs form p)) = load_calls /\
    final (script fs form p) = {| next_oid := 5 + next_oid p; cache := Some v |} /\
    (forall g, outcome (script fs form p) = Ok g -> g_assets g = v) /\
    asset_oids v = map (fun k => (k + next_oid p)%nat) [0; 1; 2; 3; 4]%nat /\
    assets_from fs v.
Proof.
  intros Hc Hp.
  destruct (load_assets_present fs p Hp)
    as (s & e1 & e2 & e3 & e4 & E0 & E1 & E2 & E3 & E4 & Hrun).
  eexists. rewrite script_run. cbv zeta.
  unfold load_assets_cached, cache_resource. rewrite Hc, Hrun.
  cbn [outcome events final next_oid].
  split; [| split; [| split; [| split]]].
  - destruct (submitted form); cbn [events];
      rewrite load_events_app; [rewrite on_submit_no_load |]; reflexivity.
  - destruct (submitted form); reflexivity.
  - intros g. destruct (submitted form); cbn [outcome].
    + destruct (outcome (on_submit _ _ _ _)); [| discriminate].
      intros [= <-]. reflexivity.
    + intros [= <-]. reflexivity.
  - unfold asset_oids, encoder_cols. cbn [a_model a_encoders oid omap list_omap].
    rewrite !lookup_insert_ne by discriminate. rewrite lookup_insert_eq.
    cbn [fmap option_fmap option_map oid].
    rewrite (lookup_insert_ne _ "Checking account" "Housing") by discriminate.
    rewrite (lookup_insert_ne _ "Saving accounts" "Housing") by discriminate.
    rewrite lookup_insert_eq.
    rewrite (lookup_insert_ne _ "Checking account" "Saving accounts") by discriminate.
    rewrite !lookup_insert_eq. reflexivity.
  - apply assets_from_loaded; assumption.
Qed.

(** Once the cache is filled, no later run loads anything or replaces the
    cached assets. *)
Lemma reruns_cache_hit (forms : list Form) (p : Process) (v : Assets) :
  cache p = Some v ->
  Forall (fun r => load_events (events r) = [] /\
                   final r = p /\
                   (forall g, outcome r = Ok g -> g_assets g = v))
         (reruns fs forms p).
Proof.
  intros Hc. induction forms as [| f rest IH]; cbn [reruns]; [constructor |].
  destruct (script_cache_hit f p v Hc) as (H1 & H2 & H3).
  cbv zeta. constructor; [auto |]. rewrite H2. exact IH.
Qed.

(** The cells of a completed run are the codes of the asset files. *)
Lemma script_cells (form : Form) (p : Process) (g : Globals) (l : Locals) :
  cache_inv fs p ->
  outcome (script fs form p) = Ok g ->
  g_locals g = Some l ->
  Forall (fun cl => exists c, file_code fs (fst cl) (snd cl) = Some c /\
                              column (fst cl) (input_df l) = Some [c])
         (categorical_fields (applicant form)).
Proof.
  intros Hinv. rewrite script_run. cbv zeta.
  destruct (outcome (load_assets_cached fs p)) as [v | e] eqn:E0; [| discriminate].
  pose proof (load_assets_cached_ok fs p v Hinv E0) as Hv.
  destruct (submitted form); cbn [outcome].
  2:{ intros [= <-]. discriminate. }
  destruct (outcome (on_submit _ _ _ _)) as [l' | e] eqn:E1; [| discriminate].
  intros [= <-]. cbn [g_locals]. intros [= ->].
  destruct (on_submit_inv _ _ _ _ _ E1) as (rest & Hb & _).
  pose proof (build_input_df_cells _ _ _ _ Hb) as Hcells.
  destruct (build_input_df_inv _ _ _ _ Hb) as (c1 & c2 & c3 & c4 & H1 & H2 & H3 & H4).
  unfold categorical_fields in *.
  inversion Hcells as [| ? ? K1 T1]; subst.
  inversion T1 as [| ? ? K2 T2]; subst.
  inversion T2 as [| ? ? K3 T3]; subst.
  inversion T3 as [| ? ? K4 T4]; subst.
  cbn [fst snd] in *.
  rewrite H1 in K1. rewrite H2 in K2. rewrite H3 in K3. rewrite H4 in K4.
  rewrite (code_of_assets fs v _ _ Hv) in H1 by (cbn; auto).
  rewrite (code_of_assets fs v _ _ Hv) in H2 by (cbn; auto).
  rewrite (code_of_assets fs v _ _ Hv) in H3 by (cbn; auto 6).
  rewrite (code_of_assets fs v _ _ Hv) in H4 by (cbn; auto 6).
  repeat constructor; cbn [fst snd]; eauto.
Qed.

(** A completed run worked on assets that came from the asset files. *)
Lemma script_assets_from (form : Form) (p : Process) (g : Globals) :
  cache_inv fs p -> outcome (script fs form p) = Ok g -> assets_from fs (g_assets g).
Proof.
  intros Hinv. rewrite script_run. cbv zeta.
  destruct (outcome (load_assets_cached fs p)) as [v | e] eqn:E0; [| discriminate].
  pose proof (load_assets_cached_ok fs p v Hinv E0) as Hv.
  destruct (submitted form); cbn [outcome].
  - destruct (outcome (on_submit _ _ _ _)); [| discriminate].
    intros [= <-]. exact Hv.
  - intros [= <-]. exact Hv.
Qed.

Lemma categorical_fields_cols (a : Applicant) (col label : string) :
  In (col, label) (categorical_fields a) -> In col encoder_cols.
Proof.
  unfold categorical_fields, encoder_cols. cbn [In].
  intros [H | [H | [H | [H | []]]]]; injection H as <- _; auto 6.
Qed.

End RerunFacts.

(** ** The claims about encoding and about the cached assets *)

(** C7. For any two completed requests of processes on the same asset files,
    whatever requests came before each and whatever the other fields of
    the two forms hold, a categorical field submitted with the same label
    gets the same integer code in both, namely the code the asset file of
    that field has for that label; and with the assets either request
    worked on, encoding that label for that field gives this code again,
    in any state of the process: the code is a function of the pair
    (field name, label). *)
Theorem encoding_depends_only_on_field_and_label
    (fs : AssetFiles) (before1 before2 : list Form) (form1 form2 : Form)
    (g1 g2 : Globals) (l1 l2 : Locals) (col label : string) :
  outcome (script fs form1 (state_after fs before1 fresh_process)) = Ok g1 ->
  g_locals g1 = Some l1 ->
  outcome (script fs form2 (state_after fs before2 fresh_process)) = Ok g2 ->
  g_locals g2 = Some l2 ->
  In (col, label) (categorical_fields (applicant form1)) ->
  In (col, label) (categorical_fields (applicant form2)) ->
  exists c,
    file_code fs col label = Some c /\
    column col (input_df l1) = Some [c] /\
    column col (input_df l2) = Some [c] /\
    (forall q, outcome (encode_field (obj <$> a_encoders (g_assets g1)) col label q)
               = Ok c) /\
    (forall q, outcome (encode_field (obj <$> a_encoders (g_assets g2)) col label q)
               = Ok c).
Proof.
  intros R1 L1 R2 L2 In1 In2.
  pose proof (state_after_inv fs before1 _ (fresh_process_inv fs)) as I1.
  pose proof (state_after_inv fs before2 _ (fresh_process_inv fs)) as I2.
  pose proof (script_cells fs form1 _ g1 l1 I1 R1 L1) as C1.
  pose proof (script_cells fs form2 _ g2 l2 I2 R2 L2) as C2.
  pose proof (script_assets_from fs form1 _ g1 I1 R1) as A1.
  pose proof (script_assets_from fs form2 _ g2 I2 R2) as A2.
  pose proof (categorical_fields_cols _ _ _ In1) as Hcol.
  rewrite Forall_forall in C1, C2.
  destruct (C1 (col, label)) as (c1 & F1 & K1); [apply list_elem_of_In; exact In1 |].
  destruct (C2 (col, label)) as (c2 & F2 & K2); [apply list_elem_of_In; exact In2 |].
  cbn [fst snd] in *. exists c1. split; [exact F1 |]. split; [exact K1 |].
  split; [rewrite K2; congruence |].
  split; intros q.
  - rewrite (encode_field_known _ col label q c1); [reflexivity |].
    rewrite (code_of_assets fs _ col label A1 Hcol). exact F1.
  - rewrite (encode_field_known _ col label q c1); [reflexivity |].
    rewrite (code_of_assets fs _ col label A2 Hcol). exact F1.
Qed.

Lemma encoding_depends_only_on_field_and_label_witness :
  exists c,
    file_code Samples.files "Sex" "male" = Some c /\
    column "Sex" table_1000 = Some [c] /\
    column "Sex" table_50000 = Some [c] /\
    (forall q, outcome (encode_field (obj <$> a_encoders sample_assets) "Sex" "male" q)
               = Ok c) /\
    (forall q, outcome (encode_field (obj <$> a_encoders sample_assets) "Sex" "male" q)
               = Ok c).
Proof.
  apply (encoding_depends_only_on_field_and_label
           Samples.files
           []
           [ {| applicant := Samples.applicant_unknown_housing; submitted := true |};
             {| applicant := Samples.applicant_1000; submitted := true |} ]
           {| applicant := Samples.applicant_1000; submitted := true |}
           {| applicant := Samples.applicant_50000; submitted := true |}
           {| g_assets := sample_assets;
              g_locals := Some {| input_df := table_1000; pred := 1;
                                  proba_good := Some Samples.f_three_quarters;
                                  proba_bad := Some Samples.f_quarter |} |}
           {| g_assets := sample_assets;
              g_locals := Some {| input_df := table_50000; pred := 0;
                                  proba_good := Some Samples.f_three_quarters;
                                  proba_bad := Some Samples.f_quarter |} |}
           {| input_df := table_1000; pred := 1;
              proba_good := Some Samples.f_three_quarters;
              proba_bad := Some Samples.f_quarter |}
           {| input_df := table_50000; pred := 0;
              proba_good := Some Samples.f_three_quarters;
              proba_bad := Some Samples.f_quarter |}
           "Sex" "male").
  - vm_compute; reflexivity.
  - reflexivity.
  - vm_compute; reflexivity.
  - reflexivity.
  - vm_compute; auto.
  - vm_compute; auto.
Defined.

(** C9. In a process whose five asset files are there, the first run of the
    script loads the classifier and the four encoders, each file once, into
    five distinct objects; no later run loads anything, and every run of
    the process, the first included, ends with the same five objects in
    the cache and, when it completes, has worked on those very objects. *)
Theorem assets_loaded_once
    (fs : AssetFiles) (first : Form) (later : list Form) :
  files_present fs = true ->
  exists v,
    load_events (events (script fs first fresh_process)) = load_calls /\
    Forall (fun r => load_events (events r) = [])
           (reruns fs later (final (script fs first fresh_process))) /\
    Forall (fun r => cache (final r) = Some v /\
                     next_oid (final r) = 5%nat /\
                     (forall g, outcome r = Ok g -> g_assets g = v))
           (reruns fs (first :: later) fresh_process) /\
    asset_oids v = [0; 1; 2; 3; 4]%nat /\
    assets_from fs v.
Proof.
  intros Hp.
  destruct (script_cache_miss fs first fresh_process eq_refl Hp)
    as (v & Hload & Hfinal & Hassets & Hoids & Hfrom).
  exists v. split; [exact Hload |].
  pose proof (reruns_cache_hit fs later _ v
                (eq_trans (f_equal cache Hfinal) eq_refl)) as Hlater.
  split; [| split; [| split; [exact Hoids | exact Hfrom]]].
  - eapply Forall_impl; [exact Hlater |]. intros r (H1 & _ & _). exact H1.
  - cbn [reruns]. cbv zeta. constructor.
    + rewrite Hfinal. cbn [cache next_oid]. auto.
    + eapply Forall_impl; [exact Hlater |]. intros r (_ & H2 & H3).
      rewrite H2, Hfinal. cbn [cache next_oid]. auto.
Qed.

Lemma assets_loaded_once_witness :
  exists v,
    load_events
      (events (script Samples.files
                 {| applicant := Samples.applicant_1000; submitted := true |}
                 fresh_process)) = load_calls /\
    Forall (fun r => load_events (events r) = [])
           (reruns Samples.files
              [ {| applicant := Samples.applicant_unknown_housing; submitted := true |};
                {| applicant := Samples.applicant_50000; submitted := true |} ]
              (final (script Samples.files
                        {| applicant := Samples.applicant_1000; submitted := true |}
                        fresh_process))) /\
    Forall (fun r => cache (final r) = Some v /\
                     next_oid (final r) = 5%nat /\
                     (forall g, outcome r = Ok g -> g_assets g = v))
           (reruns Samples.files
              [ {| applicant := Samples.applicant_1000; submitted := true |};
                {| applicant := Samples.applicant_unknown_housing; submitted := true |};
                {| applicant := Samples.applicant_50000; submitted := true |} ]
              fresh_process) /\
    asset_oids v = [0; 1; 2; 3; 4]%nat /\
    assets_from Samples.files v.
Proof.
  apply (assets_loaded_once Samples.files
           {| applicant := Samples.applicant_1000; submitted := true |}
           [ {| applicant := Samples.applicant_unknown_housing; submitted := true |};
             {| applicant := Samples.applicant_50000; submitted := true |} ]).
  vm_compute; reflexivity.
Defined.


(** * Further properties of the script *)

(** ** The clamp of the progress bar (line 165) *)

Section ClampFacts.

(** [a <= b] excludes [b < a]. *)
Lemma leb_not_ltb (a b : float) : leb a b = true -> ltb b a = false.
Proof.
  unfold ltb, leb, SFltb, SFleb. rewrite (SFcompare_swap a b).
  destruct (SFcompare a b) as [[| |] |]; cbn [option_map CompOpp]; congruence.
Qed.

(** Among numbers, [a <= b] failing means [b < a]. *)
Lemma not_leb_ltb (a b : float) :
  is_nan a = false -> is_nan b = false -> leb a b = false -> ltb b a = true.
Proof.
  intros Ha Hb. unfold ltb, leb, SFltb, SFleb. rewrite (SFcompare_swap a b).
  destruct (SFcompare_defined a b Ha Hb) as [c ->].
  destruct c; cbn [option_map CompOpp]; congruence.
Qed.

Lemma in_unit_not_nan (x : float) : in_unit x = true -> is_nan x = false.
Proof. destruct x; try reflexivity. discriminate. Qed.

End ClampFacts.

(** X1. A probability that lies in [0, 1] reaches the progress bar
    unchanged. *)
Theorem progress_value_unchanged_in_unit (pg : float) :
  in_unit pg = true -> progress_value pg = pg.
Proof.
  unfold in_unit. intros H. apply andb_prop in H. destruct H as [Hlow Hhigh].
  unfold progress_value, py_max, py_min, gtb.
  rewrite (leb_not_ltb _ _ Hlow), (leb_not_ltb _ _ Hhigh). reflexivity.
Qed.

Lemma progress_value_unchanged_in_unit_witness :
  in_unit Samples.f_three_quarters = true /\
  progress_value Samples.f_three_quarters = Samples.f_three_quarters.
Proof.
  split; [vm_compute; reflexivity |].
  apply (progress_value_unchanged_in_unit Samples.f_three_quarters).
  vm_compute; reflexivity.
Defined.

(** X2. A number outside [0, 1] is replaced by the nearer end of the
    interval: [0.0] when it is below [0.0], [1.0] otherwise. *)
Theorem progress_value_saturates (pg : float) :
  is_nan pg = false ->
  in_unit pg = false ->
  progress_value pg = if ltb pg f0 then f0 else f1.
Proof.
  intros Hnan Hout. unfold progress_value, py_max, py_min, gtb.
  destruct (ltb pg f0) eqn:Hlow.
  - replace (ltb f1 f0) with false by (vm_compute; reflexivity). reflexivity.
  - unfold in_unit in Hout.
    rewrite (not_ltb_leb pg f0 Hnan eq_refl Hlow) in Hout. cbn [andb] in Hout.
    rewrite (not_leb_ltb pg f1 Hnan eq_refl Hout). reflexivity.
Qed.

Lemma progress_value_saturates_witness :
  progress_value Samples.f_one_and_half
  = if ltb Samples.f_one_and_half f0 then f0 else f1.
Proof.
  apply (progress_value_saturates Samples.f_one_and_half); vm_compute; reflexivity.
Defined.

(** X3. Clamping twice is clamping once, for every float, a NaN
    included. *)
Theorem progress_value_idempotent (pg : float) :
  progress_value (progress_value pg) = progress_value pg.
Proof.
  destruct (is_nan pg) eqn:Hnan.
  - destruct pg; try discriminate. reflexivity.
  - apply progress_value_unchanged_in_unit.
    apply progress_value_in_unit. exact Hnan.
Qed.

(** ** The handler and the state of the process *)

Section HandlerTraces.

Variable model : Scorer.
Variable encoders : gmap string Encoder.
Variable a : Applicant.
Variable p : Process.

Lemma filter_display_app (tr1 tr2 : list event) :
  List.filter is_display (tr1 ++ tr2)
  = List.filter is_display tr1 ++ List.filter is_display tr2.
Proof. apply List.filter_app. Qed.

Lemma filter_display_transform (tr : list event) :
  forallb is_transform tr = true -> List.filter is_display tr = [].
Proof.
  induction tr as [| e rest IH]; [reflexivity |]. cbn [forallb].
  intros H. apply andb_prop in H. destruct H as [He Hrest].
  destruct e; try discriminate. cbn. apply IH. exact Hrest.
Qed.

Lemma filter_scorer_transform (tr : list event) :
  forallb is_transform tr = true -> List.filter is_scorer_call tr = [].
Proof.
  induction tr as [| e rest IH]; [reflexivity |]. cbn [forallb].
  intros H. apply andb_prop in H. destruct H as [He Hrest].
  destruct e; try discriminate. cbn. apply IH. exact Hrest.
Qed.

Lemma filter_display_proba_call (df : DataFrame) :
  List.filter is_display (proba_call model df) = [].
Proof. unfold proba_call. destruct (predict_proba model); reflexivity. Qed.

Lemma filter_scorer_proba_call (df : DataFrame) :
  List.filter is_scorer_call (proba_call model df) = proba_call model df.
Proof. unfold proba_call. destruct (predict_proba model); reflexivity. Qed.

Lemma filter_scorer_display (df : DataFrame) (label : Z) (pg : option float) :
  List.filter is_scorer_call (display_events a df label pg) = [].
Proof.
  unfold display_events, verdict_event. destruct (Z.eqb label 1), pg; reflexivity.
Qed.

Lemma filter_scorer_handler_displays (df : DataFrame) (label : Z)
    (pg : option float) :
  List.filter is_scorer_call (handler_displays a df label pg) = [].
Proof.
  unfold handler_displays, verdict_event.
  destruct (Z.eqb label 1), pg as [x |]; cbn [progress_accepts proba_display];
    try destruct (in_unit (progress_value x)); reflexivity.
Qed.

(** The progress bar refuses the clamp of a NaN only. *)
Lemma progress_refused_nan (pg : option float) :
  progress_accepts pg = false -> exists x, pg = Some x /\ is_nan x = true.
Proof.
  destruct pg as [x |]; [| discriminate]. cbn [progress_accepts]. intros H.
  exists x. split; [reflexivity |]. destruct (is_nan x) eqn:E; [reflexivity |].
  rewrite (progress_value_in_unit x E) in H. discriminate.
Qed.

(** A handler that ends in an exception has displayed nothing, unless the
    exception is the progress bar's, which comes after the verdict and the
    metrics. *)
Lemma on_submit_err_displays (e : exn) :
  outcome (on_submit model encoders a p) = Err e ->
  List.filter is_display (events (on_submit model encoders a p)) = []
  \/ exists label x,
       e = StreamlitAPIException /\
       is_nan x = true /\
       List.filter is_display (events (on_submit model encoders a p))
       = [ verdict_event label;
           EvMetric "Credit Amount" (MInt (credit_amount a));
           EvMetric "Duration (months)" (MInt (duration a));
           EvMetric "Estimated GOOD probability" (MPercent (mul x f100));
           EvProgress (progress_value x) ].
Proof.
  rewrite on_submit_run. cbv zeta.
  pose proof (filter_display_transform _ (build_input_df_events_transform encoders a p))
    as Hb.
  destruct (outcome (build_input_df encoders a p)) as [df | e1];
    [| intros _; left; exact Hb].
  destruct (predict model df) as [[| label rest] | e2]; cbn [events outcome];
    try (intros _; left; rewrite filter_display_app, Hb; reflexivity).
  rewrite read_proba_good_events.
  destruct (outcome (read_proba_good model df p)) as [pg | e3]; cbn [events outcome].
  - destruct (progress_accepts pg) eqn:Hacc; [discriminate |].
    intros [= <-]. right.
    destruct (progress_refused_nan pg Hacc) as (x & -> & Hnan).
    exists label, x. split; [reflexivity |]. split; [exact Hnan |].
    rewrite filter_display_app, Hb. cbn [app List.filter is_display].
    rewrite filter_display_app, filter_display_proba_call.
    unfold handler_displays. rewrite Hacc. cbn [app proba_display].
    unfold verdict_event. destruct (Z.eqb label 1); reflexivity.
  - intros _. left. rewrite filter_display_app, Hb. cbn [app List.filter is_display].
    apply filter_display_proba_call.
Qed.

End HandlerTraces.

(** ** Failures of the handler *)

Section HandlerFailures.

Variable model : Scorer.
Variable encoders : gmap string Encoder.
Variable a : Applicant.
Variable p : Process.

(** The assembly stops at the first label, in the order of lines 132 to
    136, that its encoder does not know. *)
Lemma build_input_df_first_unknown (n : nat) (col label : string) :
  bank_complete encoders = true ->
  first_failing (fun cl => knows encoders (fst cl) (snd cl)) (categorical_fields a)
    = Some (n, (col, label)) ->
  build_input_df encoders a p =
    {| events := take (S n) (transform_calls a);
       final := p;
       outcome := Err (UnknownCategory label) |}.
Proof.
  unfold bank_complete, encoder_cols. cbn [forallb].
  destruct (encoders !! "Sex") as [e1 |] eqn:B1; [| discriminate].
  destruct (encoders !! "Housing") as [e2 |] eqn:B2; [| discriminate].
  destruct (encoders !! "Saving accounts") as [e3 |] eqn:B3; [| discriminate].
  destruct (encoders !! "Checking account") as [e4 |] eqn:B4; [| discriminate].
  intros _. unfold categorical_fields. cbn [first_failing fst snd].
  unfold build_input_df.
  destruct (knows encoders "Sex" (sex a)) eqn:K1.
  2:{ intros [= <- <- <-].
      rewrite (bind_run _ _ _ _ _ _
                 (encode_field_unknown _ _ _ _ (ltac:(rewrite B1; eauto)) K1)).
      reflexivity. }
  destruct (knows_code _ _ _ K1) as [c1 C1].
  rewrite (bind_run _ _ _ _ _ _ (encode_field_known _ _ _ p _ C1)).
  destruct (knows encoders "Housing" (housing a)) eqn:K2.
  2:{ intros [= <- <- <-].
      rewrite (bind_run _ _ _ _ _ _
                 (encode_field_unknown _ _ _ _ (ltac:(rewrite B2; eauto)) K2)).
      reflexivity. }
  destruct (knows_code _ _ _ K2) as [c2 C2].
  rewrite (bind_run _ _ _ _ _ _ (encode_field_known _ _ _ p _ C2)).
  destruct (knows encoders "Saving accounts" (saving_accounts a)) eqn:K3.
  2:{ intros [= <- <- <-].
      rewrite (bind_run _ _ _ _ _ _
                 (encode_field_unknown _ _ _ _ (ltac:(rewrite B3; eauto)) K3)).
      reflexivity. }
  destruct (knows_code _ _ _ K3) as [c3 C3].
  rewrite (bind_run _ _ _ _ _ _ (encode_field_known _ _ _ p _ C3)).
  destruct (knows encoders "Checking account" (checking_account a)) eqn:K4;
    [discriminate |].
  intros [= <- <- <-].
  rewrite (bind_run _ _ _ _ _ _
             (encode_field_unknown _ _ _ _ (ltac:(rewrite B4; eauto)) K4)).
  reflexivity.
Qed.


End HandlerFailures.

(** X4. When several submitted labels are unknown to their encoders, the
    request ends in UnknownCategory for the first of them in the order
    Sex, Housing, Saving accounts, Checking account, after exactly the
    encoder calls up to and including that field; later fields are never
    looked up. *)
Theorem first_unknown_label_is_reported
    (model : Scorer) (encoders : gmap string Encoder) (a : Applicant)
    (p : Process) (n : nat) (col label : string) :
  bank_complete encoders = true ->
  first_failing (fun cl => knows encoders (fst cl) (snd cl)) (categorical_fields a)
    = Some (n, (col, label)) ->
  on_submit model encoders a p =
    {| events := take (S n) (transform_calls a);
       final := p;
       outcome := Err (UnknownCategory label) |}.
Proof.
  intros Hbank Hfirst. rewrite on_submit_run. cbv zeta.
  rewrite (build_input_df_first_unknown encoders a p n col label Hbank Hfirst).
  reflexivity.
Qed.

Lemma first_unknown_label_is_reported_witness :
  on_submit Samples.scorer_with_proba Samples.encoders applicant_two_unknown
    fresh_process =
    {| events := take 2 (transform_calls applicant_two_unknown);
       final := fresh_process;
       outcome := Err (UnknownCategory "squat") |}.
Proof.
  apply (first_unknown_label_is_reported
           Samples.scorer_with_proba Samples.encoders applicant_two_unknown
           fresh_process 1 "Housing" "squat");
    vm_compute; reflexivity.
Defined.



(** ** The calls and the displays of a request *)

(** X6. In every request, failed ones included, the scorer is called at most
    twice: [predict] at most once, only on the fully built table, and
    [predict_proba] at most once, only after [predict] and on the same
    table. *)
Theorem scorer_called_at_most_once_each
    (model : Scorer) (encoders : gmap string Encoder) (a : Applicant) (p : Process) :
  List.filter is_scorer_call (events (on_submit model encoders a p)) = []
  \/ exists df,
       outcome (build_input_df encoders a p) = Ok df /\
       (List.filter is_scorer_call (events (on_submit model encoders a p))
          = [EvPredict df]
        \/ List.filter is_scorer_call (events (on_submit model encoders a p))
          = [EvPredict df; EvPredictProba df]).
Proof.
  rewrite on_submit_run. cbv zeta.
  pose proof (filter_scorer_transform _ (build_input_df_events_transform encoders a p))
    as Hb.
  destruct (outcome (build_input_df encoders a p)) as [df | e1]; [| left; exact Hb].
  right. exists df. split; [reflexivity |].
  destruct (predict model df) as [[| label rest] | e2]; cbn [events];
    try (left; rewrite List.filter_app, Hb; reflexivity).
  rewrite read_proba_good_events.
  assert (Hcalls : forall tail,
             List.filter is_scorer_call tail = [] ->
             List.filter is_scorer_call
               (events (build_input_df encoders a p)
                  ++ EvPredict df :: proba_call model df ++ tail)
             = EvPredict df :: proba_call model df).
  { intros tail Htail. rewrite List.filter_app, Hb. cbn [app List.filter is_scorer_call].
    rewrite List.filter_app, filter_scorer_proba_call, Htail, app_nil_r. reflexivity. }
  destruct (outcome (read_proba_good model df p)) as [pg | e3]; cbn [events].
  - rewrite (Hcalls _ (filter_scorer_handler_displays a df label pg)).
    unfold proba_call. destruct (predict_proba model); auto.
  - rewrite <- (app_nil_r (proba_call model df)), (Hcalls [] eq_refl).
    unfold proba_call. destruct (predict_proba model); auto.
Qed.

(** X7. A completed request has done, in this order and nothing else: the four
    encoder calls; one [predict] call; one [predict_proba] call when the
    scorer has it; then the verdict, the Credit Amount and Duration metrics
    holding the submitted numbers, the probability metric and the progress
    bar when there is a P(GOOD), and the echo of the very table that was
    scored. *)
Theorem completed_request_trace
    (model : Scorer) (encoders : gmap string Encoder) (a : Applicant)
    (p : Process) (l : Locals) :
  outcome (on_submit model encoders a p) = Ok l ->
  events (on_submit model encoders a p) =
    [ EvTransform "Sex" [sex a];
      EvTransform "Housing" [housing a];
      EvTransform "Saving accounts" [saving_accounts a];
      EvTransform "Checking account" [checking_account a];
      EvPredict (input_df l) ]
    ++ match predict_proba model with
       | Some _ => [EvPredictProba (input_df l)]
       | None => []
       end
    ++ [ verdict_event (pred l);
         EvMetric "Credit Amount" (MInt (credit_amount a));
         EvMetric "Duration (months)" (MInt (duration a)) ]
    ++ match proba_good l with
       | Some pg => [ EvMetric "Estimated GOOD probability" (MPercent (mul pg f100));
                      EvProgress (progress_value pg) ]
       | None => []
       end
    ++ [EvDataframe (input_df l)].
Proof.
  intros Hok. destruct (on_submit_inv _ _ _ _ _ Hok) as (rest & H1 & H2 & H3 & _).
  rewrite (on_submit_completes _ _ _ _ _ _ _ _ H1 H2 H3
             (on_submit_ok_accepts _ _ _ _ _ Hok)).
  reflexivity.
Qed.

Lemma completed_request_trace_witness :
  events (on_submit Samples.scorer_label_only Samples.encoders
            Samples.applicant_50000 fresh_process) =
    [ EvTransform "Sex" [sex Samples.applicant_50000];
      EvTransform "Housing" [housing Samples.applicant_50000];
      EvTransform "Saving accounts" [saving_accounts Samples.applicant_50000];
      EvTransform "Checking account" [checking_account Samples.applicant_50000];
      EvPredict table_50000 ]
    ++ match predict_proba Samples.scorer_label_only with
       | Some _ => [EvPredictProba table_50000]
       | None => []
       end
    ++ [ verdict_event 0;
         EvMetric "Credit Amount" (MInt (credit_amount Samples.applicant_50000));
         EvMetric "Duration (months)" (MInt (duration Samples.applicant_50000)) ]
    ++ match @None float with
       | Some pg => [ EvMetric "Estimated GOOD probability" (MPercent (mul pg f100));
                      EvProgress (progress_value pg) ]
       | None => []
       end
    ++ [EvDataframe table_50000].
Proof.
  apply (completed_request_trace
           Samples.scorer_label_only Samples.encoders Samples.applicant_50000
           fresh_process
           {| input_df := table_50000; pred := 0;
              proba_good := None; proba_bad := None |}).
  vm_compute; reflexivity.
Defined.

(** X8. In a completed request a probability is reported exactly when the
    scorer has [predict_proba] and lists class 1; P(BAD) is set exactly
    when P(GOOD) is. *)
Theorem probability_reported_iff
    (model : Scorer) (encoders : gmap string Encoder) (a : Applicant)
    (p : Process) (l : Locals) :
  outcome (on_submit model encoders a p) = Ok l ->
  (is_Some (proba_good l)
   <-> is_Some (predict_proba model) /\ py_in 1 (classes_ model) = true)
  /\ (is_Some (proba_bad l) <-> is_Some (proba_good l)).
Proof.
  intros Hok. destruct (on_submit_inv _ _ _ _ _ Hok) as (rest & _ & _ & H3 & Hbad).
  split.
  - rewrite read_proba_good_run in H3.
    destruct (predict_proba model) as [f |]; cbn [outcome] in H3.
    + destruct (f (input_df l)) as [[| proba rows] | e]; try discriminate.
      destruct (py_in 1 (classes_ model)) eqn:Hin.
      * destruct (py_index 1 (classes_ model)) as [i |]; [| discriminate].
        destruct (proba !! i); [| discriminate].
        injection H3 as <-. split; eauto.
      * injection H3 as <-. split.
        -- intros [x Hx]. discriminate.
        -- intros [_ Hfalse]. discriminate.
    + injection H3 as <-. split.
      * intros [x Hx]. discriminate.
      * intros [[x Hx] _]. discriminate.
  - rewrite Hbad. destruct (proba_good l); cbn [proba_bad_of]; split; eauto;
      intros [x Hx]; discriminate.
Qed.

Lemma probability_reported_iff_witness :
  (is_Some (Some Samples.f_three_quarters)
   <-> is_Some (predict_proba Samples.scorer_with_proba)
       /\ py_in 1 (classes_ Samples.scorer_with_proba) = true)
  /\ (is_Some (Some Samples.f_quarter) <-> is_Some (Some Samples.f_three_quarters)).
Proof.
  apply (probability_reported_iff
           Samples.scorer_with_proba Samples.encoders Samples.applicant_1000
           fresh_process
           {| input_df := table_1000; pred := 1;
              proba_good := Some Samples.f_three_quarters;
              proba_bad := Some Samples.f_quarter |}).
  vm_compute; reflexivity.
Defined.

(** ** Loading and its failures *)

Section LoadFacts.

Variable fs : AssetFiles.

Lemma joblib_load_events_load {A} (files : gmap string A) (path : string)
    (p : Process) :
  forallb is_load (events (joblib_load files path p)) = true.
Proof. unfold joblib_load. destruct (files !! path); reflexivity. Qed.

Lemma load_encoders_events_load (cols : list string)
    (acc : gmap string (loaded Encoder)) (p : Process) :
  forallb is_load (events (load_encoders fs cols acc p)) = true.
Proof.
  revert acc p. induction cols as [| col rest IH]; intros acc p; [reflexivity |].
  cbn [load_encoders]. apply forallb_bind_events.
  - apply joblib_load_events_load.
  - intros x q. apply IH.
Qed.

Lemma load_assets_events_load (p : Process) :
  forallb is_load (events (load_assets fs p)) = true.
Proof.
  unfold load_assets. apply forallb_bind_events.
  - apply joblib_load_events_load.
  - intros x q. apply forallb_bind_events.
    + apply load_encoders_events_load.
    + intros y q'. reflexivity.
Qed.

(** Obtaining the assets, from the cache or from the files, emits load
    calls only. *)
Lemma load_assets_cached_events_load (p : Process) :
  forallb is_load (events (load_assets_cached fs p)) = true.
Proof.
  unfold load_assets_cached, cache_resource. destruct (cache p); [reflexivity |].
  pose proof (load_assets_events_load p) as H.
  destruct (outcome (load_assets fs p)); exact H.
Qed.

Lemma filter_display_load (tr : list event) :
  forallb is_load tr = true -> List.filter is_display tr = [].
Proof.
  induction tr as [| e rest IH]; [reflexivity |]. cbn [forallb].
  intros H. apply andb_prop in H. destruct H as [He Hrest].
  destruct e; try discriminate. cbn. apply IH. exact Hrest.
Qed.

(** One pass over the files stops at the first one that is missing. *)
Lemma load_assets_first_missing (p : Process) (n : nat) (path : string) (b : bool) :
  first_failing snd (load_plan fs) = Some (n, (path, b)) ->
  load_assets fs p =
    {| events := take (S n) load_calls;
       final := {| next_oid := n + next_oid p; cache := cache p |};
       outcome := Err (AssetLoadFailure path) |}.
Proof.
  unfold load_plan, encoder_cols. cbn [map first_failing snd].
  unfold load_assets, encoder_cols.
  destruct (scorer_files fs !! model_path) as [s |] eqn:E0.
  2:{ intros [= <- <- <-].
      rewrite (bind_run _ _ _ _ _ _ (joblib_load_missing _ _ p E0)).
      destruct p; reflexivity. }
  rewrite (bind_run _ _ _ _ _ _ (joblib_load_found _ _ p _ E0)).
  cbn [load_encoders outcome].
  destruct (encoder_files fs !! encoder_path "Sex") as [e1 |] eqn:E1.
  2:{ intros [= <- <- <-].
      rewrite (bind_run _ _ _ _ _ _
                 (bind_run _ _ _ _ _ _ (joblib_load_missing _ _ _ E1))).
      reflexivity. }
  rewrite (bind_run _ _ _ _ _ _
             (bind_run _ _ _ _ _ _ (joblib_load_found _ _ _ _ E1))).
  destruct (encoder_files fs !! encoder_path "Housing") as [e2 |] eqn:E2.
  2:{ intros [= <- <- <-].
      rewrite (bind_run _ _ _ _ _ _ (joblib_load_missing _ _ _ E2)). reflexivity. }
  rewrite (bind_run _ _ _ _ _ _ (joblib_load_found _ _ _ _ E2)).
  destruct (encoder_files fs !! encoder_path "Saving accounts") as [e3 |] eqn:E3.
  2:{ intros [= <- <- <-].
      rewrite (bind_run _ _ _ _ _ _ (joblib_load_missing _ _ _ E3)). reflexivity. }
  rewrite (bind_run _ _ _ _ _ _ (joblib_load_found _ _ _ _ E3)).
  destruct (encoder_files fs !! encoder_path "Checking account") as [e4 |] eqn:E4.
  2:{ intros [= <- <- <-].
      rewrite (bind_run _ _ _ _ _ _ (joblib_load_missing _ _ _ E4)). reflexivity. }
  discriminate.
Qed.

Lemma load_assets_cached_first_missing (p : Process) (n : nat) (path : string)
    (b : bool) :
  cache p = None ->
  first_failing snd (load_plan fs) = Some (n, (path, b)) ->
  load_assets_cached fs p =
    {| events := take (S n) load_calls;
       final := {| next_oid := n + next_oid p; cache := None |};
       outcome := Err (AssetLoadFailure path) |}.
Proof.
  intros Hc Hfirst. unfold load_assets_cached, cache_resource. rewrite Hc.
  rewrite (load_assets_first_missing p n path b Hfirst), Hc. reflexivity.
Qed.

(** Some file is missing exactly when the plan has a failing entry. *)
Lemma files_absent_first_missing :
  files_present fs = false ->
  exists n path b, first_failing snd (load_plan fs) = Some (n, (path, b)).
Proof.
  unfold files_present, load_plan, encoder_cols. cbn [forallb map first_failing snd].
  destruct (scorer_files fs !! model_path); [| eauto].
  destruct (encoder_files fs !! encoder_path "Sex"); [| eauto].
  destruct (encoder_files fs !! encoder_path "Housing"); [| eauto].
  destruct (encoder_files fs !! encoder_path "Saving accounts"); [| eauto].
  destruct (encoder_files fs !! encoder_path "Checking account"); [| eauto].
  discriminate.
Qed.

End LoadFacts.

(** The run of the script on a process with an empty cache and a missing
    file. *)
Lemma missing_asset_failure_run
    (fs : AssetFiles) (form : Form) (p : Process)
    (n : nat) (path : string) (b : bool) :
  cache p = None ->
  first_failing snd (load_plan fs) = Some (n, (path, b)) ->
  script fs form p =
    {| events := take (S n) load_calls;
       final := {| next_oid := n + next_oid p; cache := None |};
       outcome := Err (AssetLoadFailure path) |}.
Proof.
  intros Hc Hfirst. unfold script.
  rewrite (bind_run _ _ _ _ _ _
             (load_assets_cached_first_missing fs p n path b Hc Hfirst)).
  reflexivity.
Qed.

(** X9. When an asset file is missing, the run of the script ends in
    AssetLoadFailure for the first missing file in the order model, Sex,
    Housing, Saving accounts, Checking account: the files before it were
    opened, the files after it never are, the cache stays empty and the
    handler is not reached. *)
Theorem missing_asset_stops_the_script
    (fs : AssetFiles) (form : Form) (p : Process)
    (n : nat) (path : string) (b : bool) :
  cache p = None ->
  first_failing snd (load_plan fs) = Some (n, (path, b)) ->
  script fs form p =
    {| events := take (S n) load_calls;
       final := {| next_oid := n + next_oid p; cache := None |};
       outcome := Err (AssetLoadFailure path) |}.
Proof.
  intros Hc Hfirst. exact (missing_asset_failure_run fs form p n path b Hc Hfirst).
Qed.

Lemma missing_asset_stops_the_script_witness :
  script files_without_housing
    {| applicant := Samples.applicant_1000; submitted := true |} fresh_process =
    {| events := take 3 load_calls;
       final := {| next_oid := 2 + next_oid fresh_process; cache := None |};
       outcome := Err (AssetLoadFailure "Housing_encoder.pkl") |}.
Proof.
  apply (missing_asset_stops_the_script files_without_housing
           {| applicant := Samples.applicant_1000; submitted := true |}
           fresh_process 2 "Housing_encoder.pkl" false).
  - reflexivity.
  - vm_compute; reflexivity.
Defined.

(** ** Requests in the life of a process *)

Section RequestFacts.

Variable fs : AssetFiles.

(** The first pass of a process whose five files are there. *)
Lemma load_assets_cached_miss (p : Process) :
  cache p = None -> files_present fs = true ->
  exists v,
    load_assets_cached fs p =
      {| events := load_calls;
         final := {| next_oid := 5 + next_oid p; cache := Some v |};
         outcome := Ok v |}
    /\ assets_from fs v.
Proof.
  intros Hc Hp.
  destruct (load_assets_present fs p Hp)
    as (s & e1 & e2 & e3 & e4 & E0 & E1 & E2 & E3 & E4 & Hrun).
  eexists. unfold load_assets_cached, cache_resource. rewrite Hc, Hrun.
  cbn [outcome events final next_oid]. split; [reflexivity |].
  apply assets_from_loaded; assumption.
Qed.

(** With the files there, the assets are always obtained, from the cache or
    from the files. *)
Lemma load_assets_cached_total (p : Process) :
  files_present fs = true -> cache_inv fs p ->
  exists v, outcome (load_assets_cached fs p) = Ok v /\ assets_from fs v.
Proof.
  intros Hp Hinv. destruct (cache p) as [v |] eqn:Hc.
  - exists v. rewrite (load_assets_cached_hit fs p v Hc). split; [reflexivity |].
    unfold cache_inv in Hinv. rewrite Hc in Hinv. exact Hinv.
  - destruct (load_assets_cached_miss p Hc Hp) as (v & Hrun & Hv).
    exists v. rewrite Hrun. auto.
Qed.

Lemma state_after_cached (forms : list Form) (p : Process) (v : Assets) :
  cache p = Some v -> state_after fs forms p = p.
Proof.
  intros Hc. induction forms as [| f rest IH]; [reflexivity |].
  cbn [state_after fold_left].
  destruct (script_cache_hit fs f p v Hc) as (_ & Hfinal & _).
  rewrite Hfinal. exact IH.
Qed.

Lemma state_after_cons (f : Form) (rest : list Form) (p : Process) :
  state_after fs (f :: rest) p = state_after fs rest (final (script fs f p)).
Proof. reflexivity. Qed.

(** While a file is missing, the cache stays empty. *)
Lemma state_after_missing (forms : list Form) (p : Process) :
  files_present fs = false -> cache p = None ->
  cache (state_after fs forms p) = None.
Proof.
  intros Hp. destruct (files_absent_first_missing fs Hp) as (n & path & b & Hfirst).
  revert p. induction forms as [| f rest IH]; intros p Hc; [exact Hc |].
  rewrite state_after_cons. apply IH.
  rewrite (missing_asset_failure_run fs f p n path b Hc Hfirst). reflexivity.
Qed.

Lemma non_load_events_of_loads (tr : list event) :
  forallb is_load tr = true -> List.filter (fun e => negb (is_load e)) tr = [].
Proof.
  induction tr as [| e rest IH]; [reflexivity |]. cbn [forallb].
  intros H. apply andb_prop in H. destruct H as [He Hrest].
  cbn [List.filter]. rewrite He. cbn [negb]. apply IH. exact Hrest.
Qed.

Lemma non_load_events_keep (tr : list event) :
  load_events tr = [] -> List.filter (fun e => negb (is_load e)) tr = tr.
Proof.
  unfold load_events. induction tr as [| e rest IH]; [reflexivity |].
  cbn [List.filter]. destruct (is_load e); [discriminate |].
  cbn [negb]. intros H. rewrite (IH H). reflexivity.
Qed.

Lemma verdicts_of_loads (tr : list event) :
  forallb is_load tr = true -> verdicts tr = [].
Proof.
  induction tr as [| e rest IH]; [reflexivity |]. cbn [forallb].
  intros H. apply andb_prop in H. destruct H as [He Hrest].
  destruct e; try discriminate. rewrite verdicts_cons. cbn [verdict_of_event].
  apply IH. exact Hrest.
Qed.

(** The bank made of the cached assets knows what the files know. *)
Lemma knows_assets (v : Assets) (col label : string) :
  assets_from fs v -> In col encoder_cols ->
  knows (obj <$> a_encoders v) col label
  = match file_code fs col label with Some _ => true | None => false end.
Proof.
  intros Hv Hin. unfold knows. rewrite (code_of_assets fs v col label Hv Hin).
  reflexivity.
Qed.

Lemma fitted_on_form_assets (v : Assets) :
  assets_from fs v -> files_fitted_on_form fs = true ->
  fitted_on_form (obj <$> a_encoders v) = true.
Proof.
  intros Hv Hfit. unfold fitted_on_form.
  unfold sex_options, housing_options, saving_options, checking_options.
  cbn [forallb].
  rewrite !(knows_assets v "Sex") by (first [exact Hv | cbn; auto]).
  rewrite !(knows_assets v "Housing") by (first [exact Hv | cbn; auto]).
  rewrite !(knows_assets v "Saving accounts") by (first [exact Hv | cbn; auto 6]).
  rewrite !(knows_assets v "Checking account") by (first [exact Hv | cbn; auto 6]).
  exact Hfit.
Qed.

Lemma files_fitted_present (s : Scorer) :
  scorer_files fs !! model_path = Some s ->
  files_fitted_on_form fs = true ->
  files_present fs = true.
Proof.
  intros Hs. unfold files_fitted_on_form, files_present, file_code, encoder_cols.
  unfold sex_options, housing_options, saving_options, checking_options.
  rewrite Hs. cbn [forallb andb].
  destruct (encoder_files fs !! encoder_path "Sex"); [| discriminate].
  destruct (encoder_files fs !! encoder_path "Housing");
    [| rewrite ?andb_false_r; discriminate].
  destruct (encoder_files fs !! encoder_path "Saving accounts");
    [| rewrite ?andb_false_r; discriminate].
  destruct (encoder_files fs !! encoder_path "Checking account");
    [| rewrite ?andb_false_r; discriminate].
  reflexivity.
Qed.

End RequestFacts.

(** The labels of a valid record have codes in a bank fitted on the form. *)
Lemma valid_fitted_codes (encoders : gmap string Encoder) (a : Applicant) :
  valid_applicant a = true ->
  fitted_on_form encoders = true ->
  exists c1 c2 c3 c4,
    code_of encoders "Sex" (sex a) = Some c1 /\
    code_of encoders "Housing" (housing a) = Some c2 /\
    code_of encoders "Saving accounts" (saving_accounts a) = Some c3 /\
    code_of encoders "Checking account" (checking_account a) = Some c4.
Proof.
  unfold valid_applicant, fitted_on_form. intros Hvalid Hfit.
  do 9 (apply andb_prop in Hvalid; destruct Hvalid as [Hvalid ?]).
  do 3 (apply andb_prop in Hfit; destruct Hfit as [Hfit ?]).
  destruct (knows_code encoders "Sex" (sex a)) as [c1 C1];
    [apply (in_options_forallb (knows encoders "Sex") (sex a) sex_options);
     assumption |].
  destruct (knows_code encoders "Housing" (housing a)) as [c2 C2];
    [apply (in_options_forallb (knows encoders "Housing") (housing a)
              housing_options); assumption |].
  destruct (knows_code encoders "Saving accounts" (saving_accounts a)) as [c3 C3];
    [apply (in_options_forallb (knows encoders "Saving accounts")
              (saving_accounts a) saving_options); assumption |].
  destruct (knows_code encoders "Checking account" (checking_account a)) as [c4 C4];
    [apply (in_options_forallb (knows encoders "Checking account")
              (checking_account a) checking_options); assumption |].
  exists c1, c2, c3, c4. auto.
Qed.

(** X10. A run of the script in which the form was not submitted calls no
    encoder and no scorer and displays no result, whatever the widgets
    hold: it only obtains the assets, and completes whenever they are
    obtained. *)
Theorem unsubmitted_render_does_not_score
    (fs : AssetFiles) (a : Applicant) (p : Process) :
  events (script fs {| applicant := a; submitted := false |} p)
    = events (load_assets_cached fs p)
  /\ forallb is_load (events (script fs {| applicant := a; submitted := false |} p))
     = true
  /\ outcome (script fs {| applicant := a; submitted := false |} p)
     = match outcome (load_assets_cached fs p) with
       | Ok v => Ok {| g_assets := v; g_locals := None |}
       | Err e => Err e
       end.
Proof.
  rewrite script_run. cbv zeta. cbn [submitted].
  pose proof (load_assets_cached_events_load fs p) as Hload.
  destruct (outcome (load_assets_cached fs p)); cbn [events outcome];
    rewrite ?app_nil_r; auto.
Qed.

(** X11. A run of the script that ends in an exception has made no display
    call, with one exception: when the progress bar refuses its value, which
    happens when P(GOOD) is a NaN, the verdict, the Credit Amount and
    Duration metrics and the probability metric were shown before it. The
    display calls of such a run are these four and the refused
    [st.progress] call, in this order; the echo of the table is not
    reached. *)
Theorem failed_request_displays
    (fs : AssetFiles) (form : Form) (p : Process) (e : exn) :
  outcome (script fs form p) = Err e ->
  List.filter is_display (events (script fs form p)) = []
  \/ exists label x,
       e = StreamlitAPIException /\
       is_nan x = true /\
       List.filter is_display (events (script fs form p))
       = [ verdict_event label;
           EvMetric "Credit Amount" (MInt (credit_amount (applicant form)));
           EvMetric "Duration (months)" (MInt (duration (applicant form)));
           EvMetric "Estimated GOOD probability" (MPercent (mul x f100));
           EvProgress (progress_value x) ].
Proof.
  rewrite script_run. cbv zeta.
  pose proof (filter_display_load _ (load_assets_cached_events_load fs p)) as Hload.
  destruct (outcome (load_assets_cached fs p)) as [v | e0];
    [| intros _; left; exact Hload].
  destruct (submitted form); cbn [outcome events]; [| discriminate].
  destruct (outcome (on_submit _ _ _ _)) as [l | e1] eqn:E1; [discriminate |].
  intros [= <-]. rewrite filter_display_app, Hload. cbn [app].
  exact (on_submit_err_displays _ _ _ _ _ E1).
Qed.

Lemma failed_request_displays_witness :
  List.filter is_display
    (events (script files_nan
               {| applicant := Samples.applicant_1000; submitted := true |}
               fresh_process)) = []
  \/ exists label x,
       StreamlitAPIException = StreamlitAPIException /\
       is_nan x = true /\
       List.filter is_display
         (events (script files_nan
                    {| applicant := Samples.applicant_1000; submitted := true |}
                    fresh_process))
       = [ verdict_event label;
           EvMetric "Credit Amount" (MInt (credit_amount Samples.applicant_1000));
           EvMetric "Duration (months)" (MInt (duration Samples.applicant_1000));
           EvMetric "Estimated GOOD probability" (MPercent (mul x f100));
           EvProgress (progress_value x) ].
Proof.
  apply (failed_request_displays files_nan
           {| applicant := Samples.applicant_1000; submitted := true |}
           fresh_process StreamlitAPIException).
  vm_compute; reflexivity.
Defined.

(** X12. The outcome of a request does not depend on the requests the
    process served before, completed or failed: it is the outcome the same
    form gets as the first request of a fresh process. *)
Theorem request_outcome_independent_of_history
    (fs : AssetFiles) (before : list Form) (form : Form) :
  outcome (script fs form (state_after fs before fresh_process))
  = outcome (script fs form fresh_process).
Proof.
  destruct before as [| f0 rest]; [reflexivity |].
  rewrite state_after_cons. destruct (files_present fs) eqn:Hp.
  - destruct (load_assets_cached_miss fs fresh_process eq_refl Hp) as (v & Hrun & _).
    rewrite (script_final fs f0 fresh_process), Hrun. cbn [final].
    set (q := {| next_oid := 5 + next_oid fresh_process; cache := Some v |}) in *.
    rewrite (state_after_cached fs rest q v eq_refl).
    rewrite !script_run. cbv zeta.
    rewrite Hrun, (load_assets_cached_hit fs q v eq_refl).
    cbn [outcome events final]. destruct (submitted form); reflexivity.
  - destruct (files_absent_first_missing fs Hp) as (n & path & b & Hfirst).
    assert (Hc0 : cache (final (script fs f0 fresh_process)) = None)
      by (rewrite (missing_asset_failure_run fs f0 fresh_process n path b
                     eq_refl Hfirst); reflexivity).
    rewrite (missing_asset_failure_run fs form fresh_process n path b eq_refl Hfirst).
    rewrite (missing_asset_failure_run fs form _ n path b
               (state_after_missing fs rest _ Hp Hc0) Hfirst).
    reflexivity.
Qed.

(** X13. Once a process has served a request with its asset files there, a
    later request performs exactly the encoder calls, scorer calls and
    displays the same form gets as the first request of a fresh process;
    only the loading is left out. *)
Theorem later_request_repeats_all_but_loading
    (fs : AssetFiles) (first : Form) (between : list Form) (form : Form) :
  files_present fs = true ->
  events (script fs form (state_after fs (first :: between) fresh_process))
  = List.filter (fun e => negb (is_load e)) (events (script fs form fresh_process)).
Proof.
  intros Hp. rewrite state_after_cons.
  destruct (load_assets_cached_miss fs fresh_process eq_refl Hp) as (v & Hrun & _).
  rewrite (script_final fs first fresh_process), Hrun. cbn [final].
  set (q := {| next_oid := 5 + next_oid fresh_process; cache := Some v |}) in *.
  rewrite (state_after_cached fs between q v eq_refl).
  rewrite !script_run. cbv zeta.
  rewrite Hrun, (load_assets_cached_hit fs q v eq_refl). cbn [outcome events final].
  destruct (submitted form); cbn [events app].
  - rewrite List.filter_app.
    rewrite (non_load_events_of_loads load_calls eq_refl).
    rewrite (non_load_events_keep _ (on_submit_no_load _ _ _ _)). reflexivity.
  - rewrite app_nil_r. symmetry. apply (non_load_events_of_loads load_calls eq_refl).
Qed.

Lemma later_request_repeats_all_but_loading_witness :
  events (script Samples.files
            {| applicant := Samples.applicant_50000; submitted := true |}
            (state_after Samples.files
               [ {| applicant := Samples.applicant_unknown_housing; submitted := true |};
                 {| applicant := Samples.applicant_1000; submitted := false |} ]
               fresh_process))
  = List.filter (fun e => negb (is_load e))
      (events (script Samples.files
                 {| applicant := Samples.applicant_50000; submitted := true |}
                 fresh_process)).
Proof.
  apply (later_request_repeats_all_but_loading Samples.files
           {| applicant := Samples.applicant_unknown_housing; submitted := true |}
           [ {| applicant := Samples.applicant_1000; submitted := false |} ]
           {| applicant := Samples.applicant_50000; submitted := true |}).
  vm_compute; reflexivity.
Defined.

(** A scorer that keeps its contract gives a P(GOOD) the progress bar
    takes, or none. *)
Lemma read_proba_good_contract (model : Scorer) (df : DataFrame) (p : Process) :
  proba_contract model df ->
  exists pg,
    outcome (read_proba_good model df p) = Ok pg /\ progress_accepts pg = true.
Proof.
  unfold proba_contract. rewrite read_proba_good_run.
  destruct (predict_proba model) as [f |]; [| exists None; auto].
  intros (proba & rows & -> & Hlen & Hall). cbn [outcome].
  destruct (py_in 1 (classes_ model)) eqn:Hin; [| exists None; auto].
  destruct (py_index_in _ _ Hin) as (i & Hi & Hclass). rewrite Hi.
  assert (Hlt : (i < length proba)%nat)
    by (rewrite Hlen; eapply lookup_lt_Some; exact Hclass).
  destruct (lookup_lt_is_Some_2 proba i Hlt) as [x Hx]. rewrite Hx.
  exists (Some x). split; [reflexivity |]. cbn [progress_accepts].
  apply progress_value_in_unit. apply in_unit_not_nan.
  rewrite forallb_forall in Hall. apply Hall.
  apply list_elem_of_In. eapply list_elem_of_lookup_2. exact Hx.
Qed.

(** X14. With the model file there, the encoder files fitted on the options
    of the form and a scorer that labels every table and answers
    [predict_proba] with one probability per class, every submitted valid
    record is served, whatever came before in the process: the run
    completes, the label is the one [predict] gives for the built table,
    and exactly one verdict, the one of that label, is displayed. *)
Theorem valid_request_is_served
    (fs : AssetFiles) (before : list Form) (a : Applicant) (s : Scorer) :
  scorer_files fs !! model_path = Some s ->
  files_fitted_on_form fs = true ->
  valid_applicant a = true ->
  (forall df, exists label rest, predict s df = Ok (label :: rest)) ->
  (forall df, proba_contract s df) ->
  exists g l rest,
    outcome (script fs {| applicant := a; submitted := true |}
               (state_after fs before fresh_process)) = Ok g /\
    g_locals g = Some l /\
    predict s (input_df l) = Ok (pred l :: rest) /\
    verdicts (events (script fs {| applicant := a; submitted := true |}
                        (state_after fs before fresh_process)))
    = [verdict_of_label (pred l)].
Proof.
  intros Hs Hfit Hvalid Hpredict Hproba.
  pose proof (files_fitted_present fs s Hs Hfit) as Hp.
  pose proof (state_after_inv fs before _ (fresh_process_inv fs)) as Hinv.
  destruct (load_assets_cached_total fs _ Hp Hinv) as (v & Hv & Hfrom).
  assert (Hmodel : obj (a_model v) = s).
  { destruct Hfrom as [Hm _]. rewrite Hs in Hm. injection Hm as ->. reflexivity. }
  pose proof (fitted_on_form_assets fs v Hfrom Hfit) as Hbank.
  destruct (valid_fitted_codes _ a Hvalid Hbank) as (c1 & c2 & c3 & c4 & C1 & C2 & C3 & C4).
  set (q := final (load_assets_cached fs (state_after fs before fresh_process))).
  pose proof (build_input_df_known _ a q _ _ _ _ C1 C2 C3 C4) as Hbuild.
  apply (f_equal outcome) in Hbuild. cbn [outcome] in Hbuild.
  match type of Hbuild with _ = Ok ?t => set (df := t) in * end.
  destruct (Hpredict df) as (label & rest & Hlabel).
  destruct (read_proba_good_contract s df q (Hproba df)) as (pg & Hpg & Hacc).
  rewrite script_run. cbv zeta. rewrite Hv. cbn [submitted applicant].
  rewrite Hmodel. fold q.
  rewrite (on_submit_completes s _ a q df label rest pg Hbuild Hlabel Hpg Hacc).
  cbn [outcome events].
  eexists _, _, rest. split; [reflexivity |]. split; [reflexivity |].
  cbn [input_df pred]. split; [exact Hlabel |].
  rewrite verdicts_app.
  rewrite (verdicts_of_loads _ (load_assets_cached_events_load fs _)).
  rewrite verdicts_app, verdicts_transform_calls, verdicts_cons. cbn [verdict_of_event].
  rewrite verdicts_app, verdicts_proba_call, verdicts_display. reflexivity.
Qed.

(** X15. Once the first run has loaded the assets, later runs never open an
    asset file again, even when the files have since been replaced or
    removed: every later run works on the objects of the first load. *)
Theorem cached_assets_outlive_the_files
    (fs1 fs2 : AssetFiles) (first : Form) (later : list Form) :
  files_present fs1 = true ->
  exists v,
    assets_from fs1 v /\
    Forall (fun r => load_events (events r) = [] /\
                     (forall g, outcome r = Ok g -> g_assets g = v))
           (reruns fs2 later (final (script fs1 first fresh_process))).
Proof.
  intros Hp.
  destruct (script_cache_miss fs1 first fresh_process eq_refl Hp)
    as (v & _ & Hfinal & _ & _ & Hfrom).
  exists v. split; [exact Hfrom |].
  eapply Forall_impl;
    [exact (reruns_cache_hit fs2 later _ v
              (eq_trans (f_equal cache Hfinal) eq_refl)) |].
  intros r (H1 & _ & H3). auto.
Qed.

Lemma cached_assets_outlive_the_files_witness :
  exists v,
    assets_from Samples.files v /\
    Forall (fun r => load_events (events r) = [] /\
                     (forall g, outcome r = Ok g -> g_assets g = v))
           (reruns no_files
              [ {| applicant := Samples.applicant_50000; submitted := true |} ]
              (final (script Samples.files
                        {| applicant := Samples.applicant_1000; submitted := true |}
                        fresh_process))).
Proof.
  apply (cached_assets_outlive_the_files Samples.files no_files
           {| applicant := Samples.applicant_1000; submitted := true |}
           [ {| applicant := Samples.applicant_50000; submitted := true |} ]).
  vm_compute; reflexivity.
Defined.

Lemma valid_request_is_served_witness :
  exists g l rest,
    outcome (script Samples.files
               {| applicant := Samples.applicant_50000; submitted := true |}
               (state_after Samples.files
                  [ {| applicant := Samples.applicant_unknown_housing;
                       submitted := true |} ]
                  fresh_process)) = Ok g /\
    g_locals g = Some l /\
    predict Samples.scorer_with_proba (input_df l) = Ok (pred l :: rest) /\
    verdicts (events (script Samples.files
                        {| applicant := Samples.applicant_50000; submitted := true |}
                        (state_after Samples.files
                           [ {| applicant := Samples.applicant_unknown_housing;
                                submitted := true |} ]
                           fresh_process)))
    = [verdict_of_label (pred l)].
Proof.
  apply (valid_request_is_served Samples.files
           [ {| applicant := Samples.applicant_unknown_housing; submitted := true |} ]
           Samples.applicant_50000 Samples.scorer_with_proba).
  - vm_compute; reflexivity.
  - vm_compute; reflexivity.
  - vm_compute; reflexivity.
  - intros df. exists (Samples.label_for df), []. reflexivity.
  - intros df. exists [Samples.f_quarter; Samples.f_three_quarters], [].
    split; [reflexivity |]. split; [reflexivity |]. vm_compute; reflexivity.
Defined.

(** X16. Whenever [load_assets] returns, its dictionary holds an encoder
    under exactly the four keys Sex, Housing, Saving accounts and Checking
    account, each the content of the file named after its key; the model
    is the content of the model file; and the five objects are new ones,
    numbered from the allocator's next identity on. *)
Theorem load_assets_builds_the_bank
    (fs : AssetFiles) (p : Process) (v : Assets) :
  outcome (load_assets fs p) = Ok v ->
  (forall col, is_Some (a_encoders v !! col) <-> In col encoder_cols)
  /\ assets_from fs v
  /\ asset_oids v = map (fun k => (k + next_oid p)%nat) [0; 1; 2; 3; 4]%nat
  /\ next_oid (final (load_assets fs p)) = (5 + next_oid p)%nat.
Proof.
  intros Hok. destruct (files_present fs) eqn:Hp.
  2:{ destruct (load_assets_absent fs p Hp) as [e He]. congruence. }
  destruct (load_assets_present fs p Hp)
    as (s & e1 & e2 & e3 & e4 & E0 & E1 & E2 & E3 & E4 & Hrun).
  rewrite Hrun in Hok |- *. cbn [outcome final next_oid] in *. injection Hok as <-.
  split; [| split; [apply assets_from_loaded; assumption | split; [| reflexivity]]].
  - intros col. cbn [a_encoders]. unfold encoder_cols. cbn [In]. split.
    + intros Hsome.
      destruct (decide (col = "Checking account")) as [-> | N4]; [auto 6 |].
      destruct (decide (col = "Saving accounts")) as [-> | N3]; [auto 6 |].
      destruct (decide (col = "Housing")) as [-> | N2]; [auto |].
      destruct (decide (col = "Sex")) as [-> | N1]; [auto |].
      rewrite !lookup_insert_ne in Hsome by congruence.
      rewrite lookup_empty in Hsome. destruct Hsome as [x Hx]. discriminate.
    + intros [<- | [<- | [<- | [<- | []]]]];
        rewrite ?lookup_insert_ne by discriminate;
        rewrite lookup_insert_eq; eauto.
  - unfold asset_oids, encoder_cols. cbn [a_model a_encoders oid omap list_omap].
    rewrite !lookup_insert_ne by discriminate. rewrite lookup_insert_eq.
    cbn [fmap option_fmap option_map oid].
    rewrite (lookup_insert_ne _ "Checking account" "Housing") by discriminate.
    rewrite (lookup_insert_ne _ "Saving accounts" "Housing") by discriminate.
    rewrite lookup_insert_eq.
    rewrite (lookup_insert_ne _ "Checking account" "Saving accounts") by discriminate.
    rewrite !lookup_insert_eq. reflexivity.
Qed.

Lemma load_assets_builds_the_bank_witness :
  (forall col, is_Some (a_encoders sample_assets !! col) <-> In col encoder_cols)
  /\ assets_from Samples.files sample_assets
  /\ asset_oids sample_assets
     = map (fun k => (k + next_oid fresh_process)%nat) [0; 1; 2; 3; 4]%nat
  /\ next_oid (final (load_assets Samples.files fresh_process))
     = (5 + next_oid fresh_process)%nat.
Proof.
  apply (load_assets_builds_the_bank Samples.files fresh_process sample_assets).
  vm_compute; reflexivity.
Defined.

(** X17. While an asset file is missing, nothing is remembered between
    runs: every run of the process opens the files again from the model
    file on, up to the first missing one, and ends in the same
    AssetLoadFailure; the files that are there are loaded anew each
    time. *)
Theorem missing_asset_is_retried_every_run
    (fs : AssetFiles) (forms : list Form) (n : nat) (path : string) (b : bool) :
  first_failing snd (load_plan fs) = Some (n, (path, b)) ->
  Forall (fun r => events r = take (S n) load_calls /\
                   outcome r = Err (AssetLoadFailure path) /\
                   cache (final r) = None)
         (reruns fs forms fresh_process).
Proof.
  intros Hfirst.
  assert (Hany : forall p, cache p = None ->
            Forall (fun r => events r = take (S n) load_calls /\
                             outcome r = Err (AssetLoadFailure path) /\
                             cache (final r) = None)
                   (reruns fs forms p)).
  { induction forms as [| f rest IH]; intros p Hc; cbn [reruns]; [constructor |].
    cbv zeta. rewrite (missing_asset_failure_run fs f p n path b Hc Hfirst).
    constructor; [cbn [events outcome final cache]; auto |].
    apply IH. reflexivity. }
  apply Hany. reflexivity.
Qed.

Lemma missing_asset_is_retried_every_run_witness :
  Forall (fun r => events r = take 3 load_calls /\
                   outcome r = Err (AssetLoadFailure "Housing_encoder.pkl") /\
                   cache (final r) = None)
         (reruns files_without_housing
            [ {| applicant := Samples.applicant_1000; submitted := true |};
              {| applicant := Samples.applicant_1000; submitted := false |} ]
            fresh_process).
Proof.
  apply (missing_asset_is_retried_every_run files_without_housing
           [ {| applicant := Samples.applicant_1000; submitted := true |};
             {| applicant := Samples.applicant_1000; submitted := false |} ]
           2 "Housing_encoder.pkl" false).
  vm_compute; reflexivity.
Defined.
